(** * BitcoinKey: the secp256k1 key object of bitcoinjs-server (src/eckey.cc)

    A shallow embedding of the native key class and of its script-facing
    bindings.  The class is a thin layer over OpenSSL: the EC_KEY container,
    the BIGNUM byte codecs, point multiplication, the octet and DER codecs and
    ECDSA.  The BIGNUM codecs and the EC_KEY container are written out; the
    curve, codec and signature routines are an interface ([OpenSSL]) with a
    small contract ([OpenSSL_contract]), and a reference implementation of the
    interface over a 31-element curve is given to run the bindings on. *)

From Stdlib Require Import ZArith Lia Bool Zcong.
From Stdlib Require Import Strings.String Strings.Byte.
From Stdlib Require Import List.
Import ListNotations.
Local Open Scope Z_scope.

(** ** C integers and byte buffers *)

(** [unsigned int] and [int] are 32 bits wide; a conversion wraps. *)
Definition to_unsigned_int (z : Z) : Z := z mod 2 ^ 32.
Definition to_int (z : Z) : Z := (z + 2 ^ 31) mod 2 ^ 32 - 2 ^ 31.

(** node's [Buffer::kMaxLength]: no Buffer holds more bytes than this. *)
Definition kMaxLength : Z := 0x3fffffff.
Definition Buffer_fits (data : list byte) : Prop :=
  Z.of_nat (length data) <= kMaxLength.

(** A callee that is handed a pointer and a length reads that many bytes. *)
Definition bytes_at (data : list byte) (len : Z) : list byte :=
  firstn (Z.to_nat len) data.

Definition byte_val (b : byte) : Z := Z.of_N (Byte.to_N b).
Definition byte_of (z : Z) : byte :=
  match Byte.of_N (Z.to_N (z mod 256)) with
  | Some b => b
  | None => x00
  end.

(** [memcpy]-style store of [src] into [dst] at offset [off]. *)
Definition store_at (dst : list byte) (off : nat) (src : list byte) : list byte :=
  firstn off dst ++ src ++ skipn (off + length src) dst.

(** ** BIGNUM (openssl/bn.h)

    A BIGNUM is an integer; the byte codecs work on its magnitude. *)
Definition BIGNUM := Z.

(** [BN_bin2bn(s, len, ret)]: the big-endian bytes as a non-negative number. *)
Definition BN_bin2bn (s : list byte) : BIGNUM :=
  fold_left (fun acc b => acc * 256 + byte_val b) s 0.

Definition BN_num_bits (a : BIGNUM) : Z :=
  if Z.abs a =? 0 then 0 else Z.log2 (Z.abs a) + 1.

(** [#define BN_num_bytes(a) ((BN_num_bits(a)+7)/8)] *)
Definition BN_num_bytes (a : BIGNUM) : Z := (BN_num_bits a + 7) / 8.

Fixpoint be_bytes (n : nat) (a : Z) : list byte :=
  match n with
  | O => []
  | S n' => be_bytes n' (a / 256) ++ [byte_of a]
  end.

(** [BN_bn2bin(a, to)]: writes the big-endian magnitude, [BN_num_bytes(a)]
    bytes and no more, and returns that count. *)
Definition BN_bn2bin (a : BIGNUM) : list byte :=
  be_bytes (Z.to_nat (BN_num_bytes a)) (Z.abs a).

(** ** The EC_KEY container and the OpenSSL interface *)

(** An EC_KEY of the fixed group secp256k1: the private scalar and the public
    point, each a pointer that may be NULL. *)
Record EC_KEY_of (POINT : Type) : Type := mkEC_KEY {
  priv_key : option BIGNUM;
  pub_key : option POINT
}.
Arguments mkEC_KEY {POINT} _ _.
Arguments priv_key {POINT} _.
Arguments pub_key {POINT} _.

(** The routines of OpenSSL that eckey.cc calls and that are not written out
    here.  A container argument is the pointer the caller passes and may be
    NULL ([None]); a byte string stands for a pointer with its length; an
    encoder returns the bytes it writes, and its C result is their number
    (0 reports an error). *)
Class OpenSSL : Type := {
  EC_POINT : Type;
  ECDSA_SIG : Type;
  (** the state of the library's random source *)
  RAND : Type;
  (** the order of the generator of secp256k1 *)
  order : Z;
  (** [EC_POINT_mul(group, r, n, NULL, NULL, ctx)]: [r = n * generator];
      [None] when the call returns 0 *)
  EC_POINT_mul : option BIGNUM -> option EC_POINT;
  (** [EC_KEY_generate_key(key)]: the result and the container afterwards *)
  EC_KEY_generate_key :
    RAND -> option (EC_KEY_of EC_POINT) -> bool * option (EC_KEY_of EC_POINT);
  (** [ECDSA_do_sign(dgst, dgst_len, key)]; [None] is a NULL signature *)
  ECDSA_do_sign :
    RAND -> list byte -> option (EC_KEY_of EC_POINT) -> option ECDSA_SIG;
  (** [i2d_ECDSA_SIG(sig, pp)] *)
  i2d_ECDSA_SIG : option ECDSA_SIG -> list byte;
  (** [ECDSA_verify(0, dgst, dgst_len, sig, sig_len, key)]: 1, 0 or -1 *)
  ECDSA_verify : list byte -> list byte -> option (EC_KEY_of EC_POINT) -> Z;
  (** [i2o_ECPublicKey(key, out)] *)
  i2o_ECPublicKey : option (EC_KEY_of EC_POINT) -> list byte;
  (** [o2i_ECPublicKey(&key, &in, len)]: decodes into the container it is
      given; whether it succeeded, and the container afterwards *)
  o2i_ECPublicKey :
    option (EC_KEY_of EC_POINT) -> list byte -> bool * option (EC_KEY_of EC_POINT);
  (** [i2d_ECPrivateKey(key, out)] *)
  i2d_ECPrivateKey : option (EC_KEY_of EC_POINT) -> list byte;
  (** [d2i_ECPrivateKey(&key, &in, len)]: the filled container, or [None] *)
  d2i_ECPrivateKey :
    option (EC_KEY_of EC_POINT) -> list byte -> option (EC_KEY_of EC_POINT)
}.

Definition EC_KEY `{OpenSSL} : Type := EC_KEY_of EC_POINT.

(** What the proofs below assume of an implementation of [OpenSSL]. *)
Class OpenSSL_contract (L : OpenSSL) : Prop := {
  (** ECDSA_verify returns 1 (valid), 0 (invalid) or -1 (error) *)
  ECDSA_verify_range : forall dgst sig key,
    ECDSA_verify dgst sig key = 1 \/ ECDSA_verify dgst sig key = 0 \/
    ECDSA_verify dgst sig key = -1;
  (** a NULL signature encodes to nothing *)
  i2d_ECDSA_SIG_NULL : i2d_ECDSA_SIG None = [];
  (** a signature made with the scalar [d], in [1, order - 1], encodes to at
      least one byte and to no more than a Buffer holds, and verifies against
      the point [d * generator] *)
  ECDSA_sign_verify : forall rand dgst d q p Q sig,
    1 <= d < order ->
    length dgst = 32%nat ->
    EC_POINT_mul (Some d) = Some Q ->
    ECDSA_do_sign rand dgst (Some (mkEC_KEY (Some d) q)) = Some sig ->
    0 < Z.of_nat (length (i2d_ECDSA_SIG (Some sig))) <= kMaxLength /\
    ECDSA_verify dgst (i2d_ECDSA_SIG (Some sig)) (Some (mkEC_KEY p (Some Q))) = 1
}.

(** ** Script values *)

Section Bindings.
Context {L : OpenSSL}.

(** [EC_KEY_get0_private_key] and the two setters read and write one field.
    (They dereference the container: the model returns NULL for a NULL one.) *)
Definition EC_KEY_get0_private_key (key : option EC_KEY) : option BIGNUM :=
  match key with
  | Some e => priv_key e
  | None => None
  end.

Definition EC_KEY_set_private_key (key : EC_KEY) (priv : option BIGNUM) : EC_KEY :=
  mkEC_KEY priv (pub_key key).

Definition EC_KEY_set_public_key (key : EC_KEY) (pub : option EC_POINT) : EC_KEY :=
  mkEC_KEY (priv_key key) pub.

(** The native object: [class BitcoinKey : ObjectWrap]. *)
Record BitcoinKey : Type := mkBitcoinKey {
  ec : option EC_KEY;
  lastError : option string;
  hasPrivate : bool;
  hasPublic : bool
}.

Inductive Value : Type :=
| Undefined
| Null
| Boolean (b : bool)
| Buffer (data : list byte)
| Function (f : nat)
| Error (msg : string)
| TypeError (msg : string)
| External (k : BitcoinKey)
| Wrapped (k : BitcoinKey).

(** What a binding hands back to the script: a value, or a thrown exception. *)
Inductive Completion : Type :=
| Return (v : Value)
| Throw (e : Value).

(** Modelled from the spec: common.h, which declares [VException] and
    [REQ_FUN_ARG], is not among the sources.  An error is reported to the
    immediate caller (spec 7): [VException(msg)] throws an [Error] that carries
    [msg], and [REQ_FUN_ARG(i, var)] throws a [TypeError] unless argument [i]
    is a function. *)
Definition VException (msg : string) : Completion := Throw (Error msg).

Definition IsFunction (v : Value) : bool :=
  match v with Function _ => true | _ => false end.

Definition Buffer_HasInstance (v : Value) : bool :=
  match v with Buffer _ => true | _ => false end.

Definition Buffer_Data (v : Value) : list byte :=
  match v with Buffer data => data | _ => [] end.

(** [Buffer::Length] is a [size_t] and exact. *)
Definition Buffer_Length (v : Value) : Z := Z.of_nat (length (Buffer_Data v)).

(** [args[i]]; reading past [args.Length()] gives [undefined]. *)
Definition arg (args : list Value) (i : nat) : Value := nth i args Undefined.

(** ** Library resources

    The calls whose failure eckey.cc tests for ([EC_KEY_new_by_curve_name],
    [BN_CTX_new], [EC_POINT_new]) draw their outcome from the world, and
    [EC_KEY_free] records the container it releases. *)
Record World : Type := mkWorld {
  (** outcomes of the coming acquisitions, in order; past its end they succeed *)
  alloc_ok : list bool;
  (** the containers released so far, oldest first *)
  freed : list EC_KEY
}.

Definition M (A : Type) : Type := World -> A * World.

Definition ret {A} (a : A) : M A := fun w => (a, w).

Definition bind {A B} (c : M A) (k : A -> M B) : M B :=
  fun w => let (a, w') := c w in k a w'.

Notation "x <- c ;; k" := (bind c (fun x => k))
  (at level 61, c at next level, right associativity).

Definition acquire : M bool := fun w =>
  match alloc_ok w with
  | [] => (true, w)
  | b :: rest => (b, mkWorld rest (freed w))
  end.

Definition BN_CTX : Type := unit.

(** [EC_KEY_new_by_curve_name(NID_secp256k1)]: an empty container, or NULL. *)
Definition EC_KEY_new_by_curve_name : M (option EC_KEY) :=
  ok <- acquire ;;
  ret (if ok : bool then Some (mkEC_KEY None None) else None).

Definition BN_CTX_new : M (option BN_CTX) :=
  ok <- acquire ;; ret (if ok : bool then Some tt else None).

(** [EC_POINT_new(group)]: room for a point, or NULL. *)
Definition EC_POINT_new : M (option unit) :=
  ok <- acquire ;; ret (if ok : bool then Some tt else None).

(** [EC_KEY_free(key)]; freeing NULL does nothing. *)
Definition EC_KEY_free (key : option EC_KEY) : M unit := fun w =>
  match key with
  | Some e => (tt, mkWorld (alloc_ok w) (freed w ++ [e]))
  | None => (tt, w)
  end.

(** ** The native class *)

(** [EC_KEY_regenerate_key(eckey, priv_key)]: the result [ok] and the
    container [eckey] afterwards.  Every [goto err] leaves it untouched. *)
Definition EC_KEY_regenerate_key (eckey : option EC_KEY) (priv : option BIGNUM)
  : M (Z * option EC_KEY) :=
  match eckey with
  | None => ret (0, None)
  | Some e =>
    ctx <- BN_CTX_new ;;
    match ctx with
    | None => ret (0, Some e)
    | Some _ =>
      pub_room <- EC_POINT_new ;;
      match pub_room with
      | None => ret (0, Some e)
      | Some _ =>
        match EC_POINT_mul priv with
        | None => ret (0, Some e)
        | Some pub =>
          let e := EC_KEY_set_private_key e priv in
          let e := EC_KEY_set_public_key e (Some pub) in
          ret (1, Some e)
        end
      end
    end
  end.

(** [BitcoinKey::BitcoinKey()] *)
Definition BitcoinKey_ctor : M BitcoinKey :=
  e <- EC_KEY_new_by_curve_name ;;
  ret (mkBitcoinKey e
         (match e with
          | None => Some "Error from EC_KEY_new_by_curve_name"%string
          | Some _ => None
          end)
         false false).

(** [BitcoinKey::~BitcoinKey()] *)
Definition BitcoinKey_dtor (key : BitcoinKey) : M unit := EC_KEY_free (ec key).

(** [void BitcoinKey::Generate()] *)
Definition Generate (rand : RAND) (key : BitcoinKey) : BitcoinKey :=
  let (ok, e) := EC_KEY_generate_key rand (ec key) in
  if negb ok then
    mkBitcoinKey e (Some "Error from EC_KEY_generate_key"%string)
                 (hasPrivate key) (hasPublic key)
  else mkBitcoinKey e (lastError key) true true.

(** [int BitcoinKey::VerifySignature(digest, digest_len, sig, sig_len)] *)
Definition VerifySignature (key : BitcoinKey)
    (digest : list byte) (digest_len : Z) (sig : list byte) (sig_len : Z) : Z :=
  ECDSA_verify (bytes_at digest digest_len) (bytes_at sig sig_len) (ec key).

(** [ECDSA_SIG *BitcoinKey::Sign(digest, digest_len)]; a NULL signature is
    passed on to the caller. *)
Definition Sign (rand : RAND) (key : BitcoinKey)
    (digest : list byte) (digest_len : Z) : option ECDSA_SIG :=
  ECDSA_do_sign rand (bytes_at digest digest_len) (ec key).

(** ** Accessors *)

(** [malloc(size)]: a block whose bytes are whatever the heap held. *)
Definition malloc (heap : nat -> byte) (size : nat) : list byte :=
  map heap (seq 0 size).

(** [BitcoinKey::GetPrivate].  ([priv_size] is computed before [bn] is tested
    in the source; it is only used after the test.) *)
Definition GetPrivate (heap : nat -> byte) (key : BitcoinKey) : Completion :=
  if negb (hasPrivate key) then Return Null
  else
    match EC_KEY_get0_private_key (ec key) with
    | None => Return Null
    | Some bn =>
      let priv_size := BN_num_bytes bn in
      if priv_size >? 32 then Return Null
      else
        let priv := malloc heap 32 in
        let written := BN_bn2bin bn in
        let priv := store_at priv (Z.to_nat (32 - priv_size)) written in
        let n := Z.of_nat (length written) in
        if negb (n =? priv_size) then Return Null
        else Return (Buffer (firstn 32 priv))
    end.

(** [BitcoinKey::SetPrivate]; [data] is the content of the Buffer assigned,
    and [BN_bin2bn] takes its length as an [int]. *)
Definition SetPrivate (key : BitcoinKey) (data : list byte) : BitcoinKey :=
  let len := to_int (Z.of_nat (length data)) in
  let bn := BN_bin2bn (bytes_at data len) in
  mkBitcoinKey
    (match ec key with
     | Some e => Some (EC_KEY_set_private_key e (Some bn))
     | None => None
     end)
    (lastError key) true (hasPublic key).

(** [BitcoinKey::GetPublic] *)
Definition GetPublic (key : BitcoinKey) : Completion :=
  if negb (hasPublic key) then Return Null
  else
    let pub_size := Z.of_nat (length (i2o_ECPublicKey (ec key))) in
    if pub_size =? 0 then Return Null
    else
      let pub := i2o_ECPublicKey (ec key) in
      if negb (Z.of_nat (length pub) =? pub_size) then Return Null
      else Return (Buffer pub).

(** [BitcoinKey::SetPublic]; [data] is the content of the Buffer assigned.
    The setter returns nothing and throws nothing on either path. *)
Definition SetPublic (key : BitcoinKey) (data : list byte) : BitcoinKey :=
  let (ok, e) := o2i_ECPublicKey (ec key) data in
  if negb ok then mkBitcoinKey e (lastError key) (hasPrivate key) (hasPublic key)
  else mkBitcoinKey e (lastError key) (hasPrivate key) true.

(** ** Methods *)

(** [BitcoinKey::RegenerateSync]: the completion and the key afterwards. *)
Definition RegenerateSync (key : BitcoinKey) : M (Completion * BitcoinKey) :=
  if negb (hasPrivate key) then
    ret (VException "Regeneration requires a private key.", key)
  else
    let old := ec key in
    fresh <- EC_KEY_new_by_curve_name ;;
    r <- EC_KEY_regenerate_key fresh (EC_KEY_get0_private_key old) ;;
    let key :=
      mkBitcoinKey (snd r) (lastError key) (hasPrivate key)
                   (if fst r =? 1 then true else hasPublic key) in
    _ <- EC_KEY_free old ;;
    ret (Return Undefined, key).

(** [BitcoinKey::ToDER] *)
Definition ToDER (key : BitcoinKey) : Completion :=
  if negb (hasPrivate key) || negb (hasPublic key) then Return Null
  else
    let der_size := Z.of_nat (length (i2d_ECPrivateKey (ec key))) in
    if der_size =? 0 then Return Null
    else
      let der := i2d_ECPrivateKey (ec key) in
      if negb (Z.of_nat (length der) =? der_size) then Return Null
      else Return (Buffer der).

(** [Handle<Value> BitcoinKey::New(const Arguments& args)], the constructor
    the class template was made from.  It reads none of its arguments; a
    call that is not a construct call is redone as one. *)
Definition New_args (args : list Value) : M Completion :=
  key <- BitcoinKey_ctor ;;
  match lastError key with
  | Some msg => ret (VException msg)
  | None => ret (Return (Wrapped key))
  end.

(** [BitcoinKey::FromDER]; [cons->NewInstance(1, &external)] runs the
    constructor above on the one argument [external]. *)
Definition FromDER (args : list Value) : M Completion :=
  if negb (length args =? 1)%nat then
    ret (VException "One argument expected: der")
  else if negb (Buffer_HasInstance (arg args 0)) then
    ret (VException "Argument 'der' must be of type Buffer")
  else
    key <- BitcoinKey_ctor ;;
    match lastError key with
    | Some msg => ret (VException msg)
    | None =>
      let data := Buffer_Data (arg args 0) in
      match d2i_ECPrivateKey (ec key) data with
      | None => ret (VException "Error from d2i_ECPrivateKey(&key, &data, len)")
      | Some e =>
        let key := mkBitcoinKey (Some e) (lastError key) true true in
        let external := External key in
        New_args [external]
      end
    end.

(** Modelled from the spec: eckey.h, which declares the request of an
    offloaded verification, is not among the sources.  The request holds the
    key, the digest and signature bytes and the continuation (spec 3,
    SignatureRequest); the fields are the ones eckey.cc assigns, the lengths
    [int]s as [VerifySignature] takes them. *)
Record verify_sig_baton_t : Type := mk_baton {
  baton_key : BitcoinKey;
  baton_digest : list byte;
  baton_digestLen : Z;
  baton_sig : list byte;
  baton_sigLen : Z;
  baton_result : Z;
  baton_cb : Value
}.

(** [BitcoinKey::VerifySignature(const Arguments& args)]: the completion, and
    the request it queued, if any.  The key and the two Buffers are pinned
    ([Ref], [Persistent::New]) until the callback has run. *)
Definition VerifySignature_args (key : BitcoinKey) (args : list Value)
  : Completion * option verify_sig_baton_t :=
  if negb (length args =? 3)%nat then
    (VException "Three arguments expected: hash, sig, callback", None)
  else if negb (Buffer_HasInstance (arg args 0)) then
    (VException "Argument 'hash' must be of type Buffer", None)
  else if negb (Buffer_HasInstance (arg args 1)) then
    (VException "Argument 'sig' must be of type Buffer", None)
  else if negb (IsFunction (arg args 2)) then
    (Throw (TypeError "Argument 2 must be a function"), None)
  else if negb (hasPublic key) then
    (VException "BitcoinKey does not have a public key set", None)
  else
    let hash_buf := arg args 0 in
    let sig_buf := arg args 1 in
    if negb (Buffer_Length hash_buf =? 32) then
      (VException "Argument 'hash' must be Buffer of length 32 bytes", None)
    else
      let baton :=
        mk_baton key
                 (Buffer_Data hash_buf) (to_int (Buffer_Length hash_buf))
                 (Buffer_Data sig_buf) (to_int (Buffer_Length sig_buf))
                 (-1) (arg args 2) in
      (Return Undefined, Some baton).

(** [BitcoinKey::EIO_VerifySignature], run on a pool thread. *)
Definition EIO_VerifySignature (b : verify_sig_baton_t) : verify_sig_baton_t :=
  mk_baton (baton_key b) (baton_digest b) (baton_digestLen b)
           (baton_sig b) (baton_sigLen b)
           (VerifySignature (baton_key b)
              (baton_digest b) (baton_digestLen b) (baton_sig b) (baton_sigLen b))
           (baton_cb b).

(** A call of a script function: [cb->Call(global, argc, argv)]. *)
Record Call : Type := mkCall {
  callee : Value;
  argv : list Value
}.

(** [BitcoinKey::VerifySignatureCallback], run on the loop thread: the one
    call it makes. *)
Definition VerifySignatureCallback (b : verify_sig_baton_t) : Call :=
  let result := baton_result b in
  let argv :=
    if result =? -1 then [TypeError "Error during ECDSA_verify"; Null]
    else if result =? 0 then [Null; Boolean false]
    else if result =? 1 then [Null; Boolean true]
    else [TypeError "ECDSA_verify gave undefined return value"; Null] in
  mkCall (baton_cb b) argv.

(** [uv_queue_work(loop, req, work_cb, after_work_cb)] runs [work_cb] on a
    pool thread and then [after_work_cb] on the loop thread, each once.  The
    key is not assigned to in between (the caller's duty), so the request
    carries the key as it was when queued. *)
Definition uv_queue_work (req : verify_sig_baton_t) : Call :=
  VerifySignatureCallback (EIO_VerifySignature req).

(** [BitcoinKey::VerifySignatureSync] *)
Definition VerifySignatureSync (key : BitcoinKey) (args : list Value) : Completion :=
  if negb (length args =? 2)%nat then
    VException "Two arguments expected: hash, sig"
  else if negb (Buffer_HasInstance (arg args 0)) then
    VException "Argument 'hash' must be of type Buffer"
  else if negb (Buffer_HasInstance (arg args 1)) then
    VException "Argument 'sig' must be of type Buffer"
  else if negb (hasPublic key) then
    VException "BitcoinKey does not have a public key set"
  else
    let hash_buf := arg args 0 in
    let sig_buf := arg args 1 in
    let hash_data := Buffer_Data hash_buf in
    let sig_data := Buffer_Data sig_buf in
    let hash_len := to_unsigned_int (Buffer_Length hash_buf) in
    let sig_len := to_unsigned_int (Buffer_Length sig_buf) in
    if negb (hash_len =? 32) then
      VException "Argument 'hash' must be Buffer of length 32 bytes"
    else
      let result :=
        VerifySignature key hash_data (to_int hash_len) sig_data (to_int sig_len) in
      if result =? -1 then VException "Error during ECDSA_verify"
      else if result =? 0 then Return (Boolean false)
      else if result =? 1 then Return (Boolean true)
      else VException "ECDSA_verify gave undefined return value".

(** [BitcoinKey::SignSync] *)
Definition SignSync (rand : RAND) (key : BitcoinKey) (args : list Value) : Completion :=
  if negb (length args =? 1)%nat then
    VException "One argument expected: hash"
  else if negb (Buffer_HasInstance (arg args 0)) then
    VException "Argument 'hash' must be of type Buffer"
  else if negb (hasPrivate key) then
    VException "BitcoinKey does not have a private key set"
  else
    let hash_buf := arg args 0 in
    let hash_data := Buffer_Data hash_buf in
    let hash_len := to_unsigned_int (Buffer_Length hash_buf) in
    if negb (hash_len =? 32) then
      VException "Argument 'hash' must be Buffer of length 32 bytes"
    else
      let sig := Sign rand key hash_data (to_int hash_len) in
      let der_size := Z.of_nat (length (i2d_ECDSA_SIG sig)) in
      if der_size =? 0 then Return Null
      else
        let der := i2d_ECDSA_SIG sig in
        if negb (Z.of_nat (length der) =? der_size) then Return Null
        else Return (Buffer der).

End Bindings.

(** ** The three-way outcome of a verification, as the caller reads it *)

Inductive Outcome : Type := Valid | Invalid | Indeterminate.

(** The library's result: 1, 0 or -1. *)
Definition outcome_of_result (result : Z) : option Outcome :=
  if result =? 1 then Some Valid
  else if result =? 0 then Some Invalid
  else if result =? -1 then Some Indeterminate
  else None.

(** What [verifySignatureSync] hands back. *)
Definition outcome_of_completion `{OpenSSL} (c : Completion) : option Outcome :=
  match c with
  | Return (Boolean true) => Some Valid
  | Return (Boolean false) => Some Invalid
  | Throw (Error msg) =>
    if String.eqb msg "Error during ECDSA_verify" then Some Indeterminate else None
  | _ => None
  end.

(** What the callback of [verifySignature] is called with: [(err, result)]. *)
Definition outcome_of_call `{OpenSSL} (c : Call) : option Outcome :=
  match argv c with
  | [Null; Boolean true] => Some Valid
  | [Null; Boolean false] => Some Invalid
  | [TypeError msg; Null] =>
    if String.eqb msg "Error during ECDSA_verify" then Some Indeterminate else None
  | _ => None
  end.

(** [verifySignature(hash, sig, cb)] from the script's side: what the call
    throws or returns, and the calls of [cb] the loop makes afterwards. *)
Definition verifySignature `{OpenSSL} (key : BitcoinKey) (args : list Value)
  : Completion * list Call :=
  match VerifySignature_args key args with
  | (c, Some req) => (c, [uv_queue_work req])
  | (c, None) => (c, [])
  end.

(** Whether a completion is a value handed back, as opposed to a throw. *)
Definition is_value `{OpenSSL} (c : Completion) : bool :=
  match c with Return _ => true | Throw _ => false end.

(** The two errors of a verification by name: the digest is not 32 bytes
    long (the specification's InvalidInputError), and the library gave -1. *)
Definition InvalidInputError `{OpenSSL} : Completion :=
  VException "Argument 'hash' must be Buffer of length 32 bytes".

Definition ECDSA_verify_error `{OpenSSL} : Completion :=
  VException "Error during ECDSA_verify".

(** ** Making a key, and a script's sequence of calls *)

Section Generation.
Context {L : OpenSSL}.

(** [BitcoinKey* BitcoinKey::New()]: [NewInstance(0, NULL)] runs the
    constructor above without arguments; the result is NULL when no object
    came back, and the native key the object wraps otherwise. *)
Definition New : M (option BitcoinKey) :=
  bind (New_args [])
       (fun k => ret (match k with
                      | Return (Wrapped key) => Some key
                      | _ => None
                      end)).

(** [BitcoinKey::GenerateSync].  The source calls [key->Generate()] on what
    [New] returned without testing it: [None] stands for that call on a NULL
    key, which has no defined result. *)
Definition GenerateSync (rand : RAND) (args : list Value) : M (option Completion) :=
  bind New
       (fun key =>
          match key with
          | None => ret None
          | Some key =>
            let key := Generate rand key in
            match lastError key with
            | Some msg => ret (Some (VException msg))
            | None => ret (Some (Return (Wrapped key)))
            end
          end).

(** The calls that assign to a key: the two setters, [regenerateSync], and
    the native [Generate]. *)
Inductive Mutation : Type :=
| Assign_private (data : list byte)
| Assign_public (data : list byte)
| Call_RegenerateSync
| Call_Generate (rand : RAND).

Definition apply_mutation (m : Mutation) (key : BitcoinKey) : M BitcoinKey :=
  match m with
  | Assign_private data => ret (SetPrivate key data)
  | Assign_public data => ret (SetPublic key data)
  | Call_RegenerateSync => bind (RegenerateSync key) (fun r => ret (snd r))
  | Call_Generate rand => ret (Generate rand key)
  end.

Fixpoint apply_mutations (ms : list Mutation) (key : BitcoinKey) : M BitcoinKey :=
  match ms with
  | [] => ret key
  | m :: rest => bind (apply_mutation m key) (apply_mutations rest)
  end.

End Generation.

(** What [EC_KEY_generate_key] promises when it succeeds: the container holds
    a scalar in [1, order - 1] and the point [scalar * generator]. *)
Class OpenSSL_generate_contract (L : OpenSSL) : Prop := {
  EC_KEY_generate_key_pair : forall rand e e',
    EC_KEY_generate_key rand (Some e) = (true, e') ->
    exists d Q,
      e' = Some (mkEC_KEY (Some d) (Some Q)) /\
      1 <= d < order /\
      EC_POINT_mul (Some d) = Some Q
}.

(** * ECDSA over a group of prime order

    The signing and verification routines of OpenSSL's ecs_ossl.c, over any
    group given by its order [q], the multiples of its generator [gen_mul],
    the combination [lin_comb u1 u2 Q = u1 * G + u2 * Q] and the affine x
    coordinate of a point (none for the point at infinity). *)
Section ECDSA.
Variable point : Type.
Variable q : Z.
Variable gen_mul : Z -> point.
Variable lin_comb : Z -> Z -> point -> point.
Variable affine_x : point -> option Z.

(** The digest as a number: cut to the length of the order, first by bytes
    and then by bits. *)
Definition digest_to_bn (dgst : list byte) : Z :=
  let i := BN_num_bits q in
  let dgst_len := Z.of_nat (length dgst) in
  let dgst_len := if 8 * dgst_len >? i then (i + 7) / 8 else dgst_len in
  let m := BN_bin2bn (bytes_at dgst dgst_len) in
  if 8 * dgst_len >? i then Z.shiftr m (8 - Z.land i 7) else m.

(** One round of [ecdsa_do_sign] with the nonce [k]: none when [k], [r] or
    [s] is zero, and the caller draws again. *)
Definition ecdsa_sign_with (k m d : Z) : option (Z * Z) :=
  if k mod q =? 0 then None
  else
    match affine_x (gen_mul k) with
    | None => None
    | Some x =>
      let r := x mod q in
      if r =? 0 then None
      else
        let s := (Z.invmod k q * (m + r * d)) mod q in
        if s =? 0 then None else Some (r, s)
    end.

(** [ecdsa_do_sign]: nonces are drawn until one gives a signature; the
    random source running dry is the failure of the call. *)
Fixpoint ecdsa_do_sign (rand : list Z) (m d : Z) : option (Z * Z) :=
  match rand with
  | [] => None
  | k :: rest =>
    match ecdsa_sign_with k m d with
    | Some sig => Some sig
    | None => ecdsa_do_sign rest m d
    end
  end.

(** [ecdsa_do_verify]: 1 valid, 0 invalid, -1 error. *)
Definition ecdsa_do_verify (m : Z) (sig : Z * Z) (Q : point) : Z :=
  let (r, s) := sig in
  if (r <=? 0) || (q <=? r) || (s <=? 0) || (q <=? s) then 0
  else
    let w := Z.invmod s q in
    let u1 := (m * w) mod q in
    let u2 := (r * w) mod q in
    match affine_x (lin_comb u1 u2 Q) with
    | None => -1
    | Some x => if x mod q =? r then 1 else 0
    end.

End ECDSA.

(** * DER, as far as the two structures need it *)

Definition der_length (len : nat) : list byte :=
  if (len <? 128)%nat then [byte_of (Z.of_nat len)]
  else
    let bs := BN_bn2bin (Z.of_nat len) in
    byte_of (128 + Z.of_nat (length bs)) :: bs.

Definition der_tlv (tag : byte) (content : list byte) : list byte :=
  tag :: der_length (length content) ++ content.

(** The length at the head of [s], and what follows it. *)
Definition der_read_length (s : list byte) : option (nat * list byte) :=
  match s with
  | [] => None
  | b :: rest =>
    let v := byte_val b in
    if v <? 128 then Some (Z.to_nat v, rest)
    else
      let k := Z.to_nat (v - 128) in
      if (length rest <? k)%nat then None
      else Some (Z.to_nat (BN_bin2bn (firstn k rest)), skipn k rest)
  end.

(** The content of the element tagged [tag] at the head of [s], and what
    follows the element. *)
Definition der_read (tag : byte) (s : list byte) : option (list byte * list byte) :=
  match s with
  | [] => None
  | t :: rest =>
    if Byte.eqb t tag then
      match der_read_length rest with
      | Some (len, rest') =>
        if (length rest' <? len)%nat then None
        else Some (firstn len rest', skipn len rest')
      | None => None
      end
    else None
  end.

(** INTEGER: two's complement, shortest form. *)
Definition der_integer (a : Z) : list byte :=
  let body := BN_bn2bin a in
  let body :=
    match body with
    | [] => [x00]
    | b :: _ => if 128 <=? byte_val b then x00 :: body else body
    end in
  der_tlv x02 body.

Definition der_integer_value (body : list byte) : Z :=
  match body with
  | [] => 0
  | b :: _ =>
    if 128 <=? byte_val b then BN_bin2bn body - 256 ^ Z.of_nat (length body)
    else BN_bin2bn body
  end.

(** [ECDSA-Sig-Value ::= SEQUENCE { r INTEGER, s INTEGER }] *)
Definition der_sig_encode (sig : Z * Z) : list byte :=
  der_tlv x30 (der_integer (fst sig) ++ der_integer (snd sig)).

Definition der_sig_decode (s : list byte) : option (Z * Z) :=
  match der_read x30 s with
  | Some (body, []) =>
    match der_read x02 body with
    | Some (rb, rest) =>
      match der_read x02 rest with
      | Some (sb, []) => Some (der_integer_value rb, der_integer_value sb)
      | _ => None
      end
    | None => None
    end
  | _ => None
  end.

(** The integers from 0 up to [n - 1], for checks by enumeration. *)
Definition zrange (n : Z) : list Z := map Z.of_nat (seq 0 (Z.to_nat n)).

(** * A reference implementation of the interface

    The curve is [y^2 = x^3 + 7], the equation of secp256k1, over the field of
    43 elements; it has 31 points, so every point but the one at infinity
    generates it.  A field element takes one byte. *)
Module Ref.

Definition p : Z := 43.
Definition n : Z := 31.

Inductive point : Type :=
| Inf
| Aff (x y : Z).

Definition G : point := Aff 2 12.

Definition point_eqb (P Q : point) : bool :=
  match P, Q with
  | Inf, Inf => true
  | Aff x1 y1, Aff x2 y2 => (x1 =? x2) && (y1 =? y2)
  | _, _ => false
  end.

Definition on_curve (P : point) : bool :=
  match P with
  | Inf => true
  | Aff x y => (y * y) mod p =? (x * x * x + 7) mod p
  end.

Definition add (P Q : point) : point :=
  match P, Q with
  | Inf, _ => Q
  | _, Inf => P
  | Aff x1 y1, Aff x2 y2 =>
    if (x1 - x2) mod p =? 0 then
      if (y1 + y2) mod p =? 0 then Inf
      else
        let l := (3 * x1 * x1 * Z.invmod (2 * y1) p) mod p in
        let x3 := (l * l - 2 * x1) mod p in
        Aff x3 ((l * (x1 - x3) - y1) mod p)
    else
      let l := ((y2 - y1) * Z.invmod (x2 - x1) p) mod p in
      let x3 := (l * l - x1 - x2) mod p in
      Aff x3 ((l * (x1 - x3) - y1) mod p)
  end.

Fixpoint pos_mul (k : positive) (P : point) : point :=
  match k with
  | xH => P
  | xO k' => let Q := pos_mul k' P in add Q Q
  | xI k' => let Q := pos_mul k' P in add P (add Q Q)
  end.

(** A scalar acts through its residue modulo the order of the group. *)
Definition mul (k : Z) (P : point) : point :=
  match k mod n with
  | Zpos k' => pos_mul k' P
  | _ => Inf
  end.

Definition affine_x (P : point) : option Z :=
  match P with
  | Inf => None
  | Aff x _ => Some x
  end.

Definition lin_comb (u1 u2 : Z) (Q : point) : point :=
  add (mul u1 G) (mul u2 Q).

(** [EC_POINT_point2oct], uncompressed form. *)
Definition point2oct (P : point) : list byte :=
  match P with
  | Inf => [x00]
  | Aff x y => [x04; byte_of x; byte_of y]
  end.

(** [EC_POINT_oct2point(group, point, buf, len)]: whether it succeeded, and
    [point] afterwards.  An uncompressed encoding is stored into [point]
    before it is tested against the curve equation.  (The compressed and
    hybrid forms are refused here.) *)
Definition oct2point (P : point) (buf : list byte) : bool * point :=
  match buf with
  | [form] => if Byte.eqb form x00 then (true, Inf) else (false, P)
  | [form; xb; yb] =>
    if Byte.eqb form x04 then
      let x := byte_val xb in
      let y := byte_val yb in
      if (p <=? x) || (p <=? y) then (false, P)
      else (on_curve (Aff x y), Aff x y)
    else (false, P)
  | _ => (false, P)
  end.

Definition KEY : Type := EC_KEY_of point.

Definition EC_POINT_mul (k : option BIGNUM) : option point :=
  match k with
  | Some k => Some (mul k G)
  | None => Some Inf
  end.

(** The random source: the numbers [BN_rand_range(order)] will return. *)
Definition RAND : Type := list Z.

Definition EC_KEY_generate_key (rand : RAND) (key : option KEY) : bool * option KEY :=
  match key with
  | None => (false, None)
  | Some e =>
    match filter (fun k => negb (k mod n =? 0)) rand with
    | [] => (false, Some e)
    | k :: _ => (true, Some (mkEC_KEY (Some (k mod n)) (Some (mul k G))))
    end
  end.

Definition ECDSA_do_sign (rand : RAND) (dgst : list byte) (key : option KEY)
  : option (Z * Z) :=
  match key with
  | Some (mkEC_KEY (Some d) _) =>
    ecdsa_do_sign point n (fun k => mul k G) affine_x rand (digest_to_bn n dgst) d
  | _ => None
  end.

Definition i2d_ECDSA_SIG (sig : option (Z * Z)) : list byte :=
  match sig with
  | Some sig => der_sig_encode sig
  | None => []
  end.

Definition ECDSA_verify (dgst sig : list byte) (key : option KEY) : Z :=
  match der_sig_decode sig with
  | None => -1
  | Some rs =>
    match key with
    | Some (mkEC_KEY _ (Some Q)) =>
      ecdsa_do_verify point n lin_comb affine_x (digest_to_bn n dgst) rs Q
    | _ => -1
    end
  end.

Definition i2o_ECPublicKey (key : option KEY) : list byte :=
  match key with
  | Some (mkEC_KEY _ (Some Q)) => point2oct Q
  | _ => []
  end.

(** [o2i_ECPublicKey]: the point of the container is made if it is NULL, and
    the bytes are decoded into it. *)
Definition o2i_ECPublicKey (key : option KEY) (data : list byte) : bool * option KEY :=
  match key with
  | None => (false, None)
  | Some e =>
    let pub := match pub_key e with Some Q => Q | None => Inf end in
    let (ok, pub) := oct2point pub data in
    (ok, Some (mkEC_KEY (priv_key e) (Some pub)))
  end.

(** The object identifier of secp256k1, 1.3.132.0.10. *)
Definition secp256k1_oid : list byte := [x06; x05; x2b; x81; x04; x00; x0a].

(** [ECPrivateKey ::= SEQUENCE { version INTEGER 1, privateKey OCTET STRING,
    parameters [0] OID, publicKey [1] BIT STRING }] *)
Definition i2d_ECPrivateKey (key : option KEY) : list byte :=
  match key with
  | Some (mkEC_KEY (Some d) (Some Q)) =>
    der_tlv x30
      (der_integer 1 ++ der_tlv x04 (BN_bn2bin d) ++ der_tlv xa0 secp256k1_oid
       ++ der_tlv xa1 (der_tlv x03 (x00 :: point2oct Q)))
  | _ => []
  end.

Definition list_byte_eqb (a b : list byte) : bool :=
  (length a =? length b)%nat && forallb (fun xy => Byte.eqb (fst xy) (snd xy)) (combine a b).

Definition d2i_ECPrivateKey (key : option KEY) (data : list byte) : option KEY :=
  match der_read x30 data with
  | Some (body, _) =>
    match der_read x02 body with
    | Some (version, rest) =>
      if negb (der_integer_value version =? 1) then None
      else
        match der_read x04 rest with
        | Some (priv, rest) =>
          let d := BN_bin2bn priv in
          let rest :=
            match der_read xa0 rest with
            | Some (params, rest') =>
              if list_byte_eqb params secp256k1_oid then Some rest' else None
            | None => Some rest
            end in
          match rest with
          | None => None
          | Some [] => Some (mkEC_KEY (Some d) (Some (mul d G)))
          | Some rest =>
            match der_read xa1 rest with
            | Some (bits, _) =>
              match der_read x03 bits with
              | Some (_ :: oct, _) =>
                let (ok, Q) := oct2point Inf oct in
                if ok then Some (mkEC_KEY (Some d) (Some Q)) else None
              | _ => None
              end
            | None => None
            end
          end
        | None => None
        end
    | None => None
    end
  | None => None
  end.

Definition openssl : OpenSSL :=
  Build_OpenSSL point (Z * Z) RAND n
    EC_POINT_mul EC_KEY_generate_key ECDSA_do_sign i2d_ECDSA_SIG ECDSA_verify
    i2o_ECPublicKey o2i_ECPublicKey i2d_ECPrivateKey d2i_ECPrivateKey.

End Ref.

(** ** Keys and inputs to run the bindings on *)
Module Example.

Definition digest32 : list byte := repeat x5a 32.

(** A key pair: the scalar 5 and the point [5 * G = (12, 12)]. *)
Definition pair_key : @BitcoinKey Ref.openssl :=
  mkBitcoinKey (L := Ref.openssl) (Some (mkEC_KEY (Some 5) (Some (Ref.Aff 12 12)))) None true true.

(** Private and public material that do not belong together: the scalar 5
    and the point [6 * G = (29, 31)], as [SetPrivate] and [SetPublic] leave
    them when called with unrelated bytes. *)
Definition mismatched_key : @BitcoinKey Ref.openssl :=
  mkBitcoinKey (L := Ref.openssl) (Some (mkEC_KEY (Some 5) (Some (Ref.Aff 29 31)))) None true true.

(** A key that was only given a private scalar, 9. *)
Definition private_only_key : @BitcoinKey Ref.openssl :=
  mkBitcoinKey (L := Ref.openssl) (Some (mkEC_KEY (Some 9) None)) None true false.

(** A key without material, as the constructor makes it. *)
Definition empty_key : @BitcoinKey Ref.openssl :=
  mkBitcoinKey (L := Ref.openssl) (Some (mkEC_KEY None None)) None false false.

(** The random source returns 7. *)
Definition rand : @RAND Ref.openssl := [7 : Z].

(** The signature of [digest32] by the scalar 5 with the nonce 7:
    [r = 25], [s = 15]. *)
Definition signature : list byte := [x30; x06; x02; x01; x19; x02; x01; x0f].

(** A heap whose free blocks hold the byte 0xaa. *)
Definition used_heap : nat -> byte := fun _ => xaa.

(** A world in which the second acquisition fails. *)
Definition failing_world : @World Ref.openssl := mkWorld (L := Ref.openssl) [true; false] [].

Definition fresh_world : @World Ref.openssl := mkWorld (L := Ref.openssl) [] [].

(** The key pair that [GenerateSync] makes from [rand]: the scalar 7 and the
    point [7 * G = (25, 18)]. *)
Definition generated_key : @BitcoinKey Ref.openssl :=
  mkBitcoinKey (L := Ref.openssl) (Some (mkEC_KEY (Some 7) (Some (Ref.Aff 25 18)))) None true true.

(** A random source that returns 3. *)
Definition other_rand : @RAND Ref.openssl := [3 : Z].

(** The signature of [digest32] by the scalar 7 with the nonce 3:
    [r = 4], [s = 13]. *)
Definition other_signature : list byte := [x30; x06; x02; x01; x04; x02; x01; x0d].

(** A scalar of 32 bytes. *)
Definition wide_scalar : list byte := x80 :: repeat x01 31.

End Example.

(** * Properties *)

(** ** C integers *)

Lemma to_int_to_unsigned_int (z : Z) : to_int (to_unsigned_int z) = to_int z.
Proof.
  unfold to_int, to_unsigned_int.
  now rewrite Zplus_mod_idemp_l.
Qed.

Lemma to_int_fits (z : Z) : 0 <= z <= kMaxLength -> to_int z = z.
Proof.
  unfold to_int, kMaxLength; intros Hz.
  rewrite Z.mod_small; lia.
Qed.

Lemma to_unsigned_int_fits (z : Z) : 0 <= z <= kMaxLength -> to_unsigned_int z = z.
Proof.
  unfold to_unsigned_int, kMaxLength; intros Hz.
  apply Z.mod_small; lia.
Qed.

Lemma bytes_at_length (data : list byte) :
  bytes_at data (Z.of_nat (length data)) = data.
Proof.
  unfold bytes_at. rewrite Nat2Z.id. apply firstn_all.
Qed.

Lemma Buffer_fits_to_int (data : list byte) :
  Buffer_fits data ->
  to_int (Z.of_nat (length data)) = Z.of_nat (length data).
Proof.
  intros Hfit. apply to_int_fits. unfold Buffer_fits in Hfit. lia.
Qed.

Lemma Buffer_fits_to_unsigned_int (data : list byte) :
  Buffer_fits data ->
  to_unsigned_int (Z.of_nat (length data)) = Z.of_nat (length data).
Proof.
  intros Hfit. apply to_unsigned_int_fits. unfold Buffer_fits in Hfit. lia.
Qed.

(** ** Bytes and BIGNUM codecs *)

Lemma byte_val_range (b : byte) : 0 <= byte_val b < 256.
Proof.
  unfold byte_val. pose proof (Byte.to_N_bounded b). lia.
Qed.

Lemma byte_val_of (z : Z) : byte_val (byte_of z) = z mod 256.
Proof.
  unfold byte_val, byte_of.
  assert (Hr : 0 <= z mod 256 < 256) by (apply Z.mod_pos_bound; lia).
  destruct (Byte.of_N (Z.to_N (z mod 256))) as [b|] eqn:E.
  - apply Byte.to_of_N in E. rewrite E. lia.
  - exfalso.
    pose proof (Byte.to_of_N_option_map (Z.to_N (z mod 256))) as H.
    rewrite E in H. cbn in H.
    destruct (N.leb_spec (Z.to_N (z mod 256)) 255); [discriminate | lia].
Qed.

Lemma BN_bin2bn_acc (s : list byte) (acc : Z) :
  fold_left (fun acc b => acc * 256 + byte_val b) s acc
  = acc * 256 ^ Z.of_nat (length s) + BN_bin2bn s.
Proof.
  unfold BN_bin2bn. revert acc.
  induction s as [|b s IH]; intros acc.
  - cbn. lia.
  - cbn [fold_left length]. rewrite IH, (IH (0 * 256 + byte_val b)).
    rewrite Nat2Z.inj_succ, Z.pow_succ_r by lia. ring.
Qed.

Lemma BN_bin2bn_app (s t : list byte) :
  BN_bin2bn (s ++ t) = BN_bin2bn s * 256 ^ Z.of_nat (length t) + BN_bin2bn t.
Proof.
  unfold BN_bin2bn at 1. rewrite fold_left_app.
  apply BN_bin2bn_acc.
Qed.

Lemma BN_bin2bn_nonneg (s : list byte) : 0 <= BN_bin2bn s.
Proof.
  induction s as [|b s IH] using rev_ind.
  - cbn. lia.
  - rewrite BN_bin2bn_app. cbn [length Z.of_nat].
    assert (BN_bin2bn [b] = byte_val b) by (cbn; lia).
    pose proof (byte_val_range b). nia.
Qed.

Lemma length_be_bytes (n : nat) (a : Z) : length (be_bytes n a) = n.
Proof.
  revert a. induction n as [|n IH]; intros a; cbn; [reflexivity|].
  rewrite length_app, IH. cbn. lia.
Qed.

Lemma BN_bin2bn_be_bytes (n : nat) (a : Z) :
  0 <= a -> BN_bin2bn (be_bytes n a) = a mod 256 ^ Z.of_nat n.
Proof.
  revert a. induction n as [|n IH]; intros a Ha.
  - cbn. now rewrite Z.mod_1_r.
  - cbn [be_bytes]. rewrite BN_bin2bn_app, IH by (apply Z.div_pos; lia).
    cbn [length].
    assert (E : BN_bin2bn [byte_of a] = a mod 256)
      by (unfold BN_bin2bn; cbn; now rewrite byte_val_of).
    rewrite E. change (256 ^ Z.of_nat 1) with 256.
    rewrite (Nat2Z.inj_succ n), Z.pow_succ_r by lia.
    rewrite Z.rem_mul_r by lia. lia.
Qed.

Lemma BN_num_bytes_nonneg (a : BIGNUM) : 0 <= BN_num_bytes a.
Proof.
  unfold BN_num_bytes, BN_num_bits.
  destruct (Z.abs a =? 0); apply Z.div_pos; try lia.
  pose proof (Z.log2_nonneg (Z.abs a)). lia.
Qed.

Lemma BN_num_bytes_bound (a : BIGNUM) : Z.abs a < 256 ^ BN_num_bytes a.
Proof.
  unfold BN_num_bytes, BN_num_bits.
  destruct (Z.eqb_spec (Z.abs a) 0) as [E|E].
  - rewrite E. cbn. lia.
  - assert (Hpos : 0 < Z.abs a) by lia.
    pose proof (Z.log2_nonneg (Z.abs a)) as Hl.
    destruct (Z.log2_spec _ Hpos) as [_ Hlt].
    set (l := Z.log2 (Z.abs a)) in *.
    assert (Hd : l + 1 <= 8 * ((l + 1 + 7) / 8)).
    { pose proof (Z.div_mod (l + 1 + 7) 8 ltac:(lia)).
      pose proof (Z.mod_pos_bound (l + 1 + 7) 8 ltac:(lia)). lia. }
    change 256 with (2 ^ 8). rewrite <- Z.pow_mul_r by (try apply Z.div_pos; lia).
    eapply Z.lt_le_trans; [exact Hlt|].
    replace (Z.succ l) with (l + 1) by lia.
    apply Z.pow_le_mono_r; lia.
Qed.

Lemma length_BN_bn2bin (a : BIGNUM) :
  Z.of_nat (length (BN_bn2bin a)) = BN_num_bytes a.
Proof.
  unfold BN_bn2bin. rewrite length_be_bytes.
  apply Z2Nat.id, BN_num_bytes_nonneg.
Qed.

(** Reading back what [BN_bn2bin] wrote gives the magnitude. *)
Lemma BN_bin2bn_bn2bin (a : BIGNUM) : BN_bin2bn (BN_bn2bin a) = Z.abs a.
Proof.
  unfold BN_bn2bin.
  rewrite BN_bin2bn_be_bytes by lia.
  rewrite Z2Nat.id by apply BN_num_bytes_nonneg.
  apply Z.mod_small. split; [lia | apply BN_num_bytes_bound].
Qed.

(** ** ECDSA: a signature verifies against the signer's point

    For a group of prime order [q] whose operations obey the two laws below,
    whatever [ecdsa_do_sign] returns for the scalar [d] is accepted by
    [ecdsa_do_verify] for the point [d * G]. *)
Section ECDSA_sound.
Variable point : Type.
Variable q : Z.
Variable gen_mul : Z -> point.
Variable lin_comb : Z -> Z -> point -> point.
Variable affine_x : point -> option Z.
Hypothesis q_prime : Z.prime q.
Hypothesis gen_mul_mod : forall k, gen_mul (k mod q) = gen_mul k.
Hypothesis lin_comb_gen :
  forall u1 u2 d, lin_comb u1 u2 (gen_mul d) = gen_mul (u1 + u2 * d).

Let q_gt_1 : 1 < q.
Proof. destruct q_prime; assumption. Qed.

Lemma invmod_eqm_1 (a : Z) : a mod q <> 0 -> eqm q (Z.invmod a q * a) 1.
Proof.
  intros Ha. unfold eqm.
  rewrite (Z.invmod_prime a q q_prime Ha).
  symmetry. apply Z.mod_1_l, q_gt_1.
Qed.

(** The congruence behind verification: with [kinv * k = 1], [w * s = 1] and
    [s = kinv * (m + r * d)] modulo [q], the scalar [u1 + u2 * d] is [k]. *)
Lemma ecdsa_nonce_eqm (k m d r kinv s w : Z) :
  eqm q (kinv * k) 1 ->
  eqm q s (kinv * (m + r * d)) ->
  eqm q (w * s) 1 ->
  eqm q ((m * w) mod q + (r * w) mod q * d) k.
Proof.
  intros Hkinv Hs Hw.
  apply eqm_trans with (m * w + r * w * d).
  { apply Zplus_eqm; [apply Zmod_eqm|].
    apply Zmult_eqm; [apply Zmod_eqm | apply eqm_refl]. }
  apply eqm_trans with (w * (m + r * d) * (kinv * k)).
  { replace (m * w + r * w * d) with (w * (m + r * d) * 1) by ring.
    apply Zmult_eqm; [apply eqm_refl | apply eqm_sym, Hkinv]. }
  replace (w * (m + r * d) * (kinv * k))
    with (w * (kinv * (m + r * d)) * k) by ring.
  apply eqm_trans with (w * s * k).
  { apply Zmult_eqm; [|apply eqm_refl].
    apply Zmult_eqm; [apply eqm_refl | apply eqm_sym, Hs]. }
  replace k with (1 * k) at 2 by ring.
  apply Zmult_eqm; [exact Hw | apply eqm_refl].
Qed.

Lemma ecdsa_nonce_recovered (k m d r : Z) :
  k mod q <> 0 ->
  (Z.invmod k q * (m + r * d)) mod q <> 0 ->
  ((m * Z.invmod ((Z.invmod k q * (m + r * d)) mod q) q) mod q
   + (r * Z.invmod ((Z.invmod k q * (m + r * d)) mod q) q) mod q * d) mod q
  = k mod q.
Proof.
  intros Hk Hs.
  apply (ecdsa_nonce_eqm k m d r (Z.invmod k q)
           ((Z.invmod k q * (m + r * d)) mod q)).
  - apply invmod_eqm_1, Hk.
  - apply Zmod_eqm.
  - apply invmod_eqm_1. rewrite Z.mod_mod by lia. exact Hs.
Qed.

Lemma ecdsa_sign_with_verify (k m d r s : Z) :
  ecdsa_sign_with point q gen_mul affine_x k m d = Some (r, s) ->
  ecdsa_do_verify point q lin_comb affine_x m (r, s) (gen_mul d) = 1.
Proof.
  unfold ecdsa_sign_with, ecdsa_do_verify.
  destruct (Z.eqb_spec (k mod q) 0) as [|Hk]; [discriminate|].
  destruct (affine_x (gen_mul k)) as [x|] eqn:Hx; [|discriminate].
  destruct (Z.eqb_spec (x mod q) 0) as [|Hr]; [discriminate|].
  destruct (Z.eqb_spec ((Z.invmod k q * (m + x mod q * d)) mod q) 0) as [|Hs];
    [discriminate|].
  intros [= <- <-].
  set (r := x mod q) in *.
  set (s := (Z.invmod k q * (m + r * d)) mod q) in *.
  assert (Hrb : 0 <= r < q) by (apply Z.mod_pos_bound; lia).
  assert (Hsb : 0 <= s < q) by (apply Z.mod_pos_bound; lia).
  assert (Hin : (r <=? 0) || (q <=? r) || (s <=? 0) || (q <=? s) = false).
  { rewrite !orb_false_iff. repeat split; apply Z.leb_gt; lia. }
  rewrite Hin. subst r s.
  rewrite lin_comb_gen, <- gen_mul_mod.
  rewrite (ecdsa_nonce_recovered k m d (x mod q) Hk Hs).
  rewrite gen_mul_mod, Hx, Z.eqb_refl. reflexivity.
Qed.

Lemma ecdsa_do_sign_verify (rand : list Z) (m d : Z) (sig : Z * Z) :
  ecdsa_do_sign point q gen_mul affine_x rand m d = Some sig ->
  ecdsa_do_verify point q lin_comb affine_x m sig (gen_mul d) = 1.
Proof.
  induction rand as [|k rest IH]; cbn [ecdsa_do_sign]; [discriminate|].
  destruct (ecdsa_sign_with point q gen_mul affine_x k m d) as [[r s]|] eqn:E.
  - intros [= <-]. now apply ecdsa_sign_with_verify with (k := k).
  - exact IH.
Qed.

(** Both numbers of a signature lie in [1, q - 1]. *)
Lemma ecdsa_do_sign_range (rand : list Z) (m d r s : Z) :
  ecdsa_do_sign point q gen_mul affine_x rand m d = Some (r, s) ->
  0 < r < q /\ 0 < s < q.
Proof.
  induction rand as [|k rest IH]; cbn [ecdsa_do_sign]; [discriminate|].
  destruct (ecdsa_sign_with point q gen_mul affine_x k m d) as [[r' s']|] eqn:E;
    [|exact IH].
  intros [= -> ->]. revert E. unfold ecdsa_sign_with.
  destruct (k mod q =? 0); [discriminate|].
  destruct (affine_x (gen_mul k)) as [x|]; [|discriminate].
  destruct (Z.eqb_spec (x mod q) 0) as [|Hr]; [discriminate|].
  destruct (Z.eqb_spec ((Z.invmod k q * (m + x mod q * d)) mod q) 0) as [|Hs];
    [discriminate|].
  intros [= <- <-].
  pose proof (Z.mod_pos_bound x q ltac:(lia)).
  pose proof (Z.mod_pos_bound (Z.invmod k q * (m + x mod q * d)) q ltac:(lia)).
  lia.
Qed.

(** The verdict is one of the three results. *)
Lemma ecdsa_do_verify_range (m : Z) (sig : Z * Z) (Q : point) :
  let v := ecdsa_do_verify point q lin_comb affine_x m sig Q in
  v = 1 \/ v = 0 \/ v = -1.
Proof.
  unfold ecdsa_do_verify. destruct sig as [r s].
  destruct ((r <=? 0) || (q <=? r) || (s <=? 0) || (q <=? s)); [auto|].
  destruct (affine_x _) as [x|]; [|auto].
  destruct (x mod q =? r); auto.
Qed.

End ECDSA_sound.

(** ** The reference implementation meets the contract *)

Lemma zrange_In (n z : Z) : 0 <= z < n -> In z (zrange n).
Proof.
  intros Hz. unfold zrange. apply in_map_iff.
  exists (Z.to_nat z). split; [lia|]. apply in_seq. lia.
Qed.

Lemma forallb_zrange (P : Z -> bool) (n : Z) :
  forallb P (zrange n) = true -> forall z, 0 <= z < n -> P z = true.
Proof.
  intros H z Hz. rewrite forallb_forall in H. apply H, zrange_In, Hz.
Qed.

Lemma ref_point_eqb_eq (P Q : Ref.point) : Ref.point_eqb P Q = true -> P = Q.
Proof.
  destruct P as [|x1 y1], Q as [|x2 y2]; cbn; try discriminate; [reflexivity|].
  intros H. apply andb_prop in H as [Hx Hy].
  apply Z.eqb_eq in Hx, Hy. now subst.
Qed.

Lemma ref_n_prime : Z.prime Ref.n.
Proof.
  split; [reflexivity|].
  intros k Hk Hdiv.
  assert (T : forallb (fun k => (k <? 2) || negb (Ref.n mod k =? 0)) (zrange Ref.n) = true)
    by (vm_compute; reflexivity).
  pose proof (forallb_zrange _ _ T k ltac:(lia)) as Hc. cbn beta in Hc.
  apply Z.mod_divide in Hdiv; [|lia].
  rewrite Hdiv in Hc. cbn in Hc.
  destruct (Z.ltb_spec k 2); [lia | discriminate].
Qed.

Lemma ref_mul_mod (k : Z) (P : Ref.point) : Ref.mul (k mod Ref.n) P = Ref.mul k P.
Proof.
  unfold Ref.mul. now rewrite Z.mod_mod by (unfold Ref.n; lia).
Qed.

(** The two laws of the scalar action on the multiples of [G], each by
    enumeration of the residues of the two scalars. *)
Lemma ref_mul_add (a b : Z) :
  Ref.add (Ref.mul a Ref.G) (Ref.mul b Ref.G) = Ref.mul (a + b) Ref.G.
Proof.
  assert (T : forallb (fun a => forallb (fun b =>
               Ref.point_eqb (Ref.add (Ref.mul a Ref.G) (Ref.mul b Ref.G))
                             (Ref.mul (a + b) Ref.G))
             (zrange Ref.n)) (zrange Ref.n) = true)
    by (vm_compute; reflexivity).
  assert (Hn : 0 < Ref.n) by reflexivity.
  pose proof (forallb_zrange _ _ T _ (Z.mod_pos_bound a Ref.n Hn)) as Ta.
  cbn beta in Ta.
  pose proof (forallb_zrange _ _ Ta _ (Z.mod_pos_bound b Ref.n Hn)) as Tb.
  cbn beta in Tb.
  apply ref_point_eqb_eq in Tb.
  rewrite !ref_mul_mod in Tb. rewrite Tb.
  rewrite <- ref_mul_mod, <- (ref_mul_mod (a + b)).
  f_equal. now rewrite <- Z.add_mod by lia.
Qed.

Lemma ref_mul_mul (a b : Z) :
  Ref.mul a (Ref.mul b Ref.G) = Ref.mul (a * b) Ref.G.
Proof.
  assert (T : forallb (fun a => forallb (fun b =>
               Ref.point_eqb (Ref.mul a (Ref.mul b Ref.G)) (Ref.mul (a * b) Ref.G))
             (zrange Ref.n)) (zrange Ref.n) = true)
    by (vm_compute; reflexivity).
  assert (Hn : 0 < Ref.n) by reflexivity.
  pose proof (forallb_zrange _ _ T _ (Z.mod_pos_bound a Ref.n Hn)) as Ta.
  cbn beta in Ta.
  pose proof (forallb_zrange _ _ Ta _ (Z.mod_pos_bound b Ref.n Hn)) as Tb.
  cbn beta in Tb.
  apply ref_point_eqb_eq in Tb.
  rewrite !ref_mul_mod in Tb. rewrite Tb.
  rewrite <- ref_mul_mod, <- (ref_mul_mod (a * b)).
  f_equal. now rewrite <- Z.mul_mod by lia.
Qed.

(** [u1 * G + u2 * (d * G) = (u1 + u2 * d) * G] *)
Lemma ref_lin_comb_gen (u1 u2 d : Z) :
  Ref.lin_comb u1 u2 (Ref.mul d Ref.G) = Ref.mul (u1 + u2 * d) Ref.G.
Proof.
  unfold Ref.lin_comb. now rewrite ref_mul_mul, ref_mul_add.
Qed.

(** A signature with both numbers in [1, 30] survives its DER encoding,
    which takes eight bytes. *)
Lemma ref_der_sig_roundtrip (r s : Z) :
  0 < r < Ref.n -> 0 < s < Ref.n ->
  der_sig_decode (der_sig_encode (r, s)) = Some (r, s) /\
  length (der_sig_encode (r, s)) = 8%nat.
Proof.
  intros Hr Hs.
  assert (T : forallb (fun r => forallb (fun s =>
               match der_sig_decode (der_sig_encode (r, s)) with
               | Some (r', s') =>
                 (r =? 0) || (s =? 0) ||
                 ((r' =? r) && (s' =? s) &&
                  (length (der_sig_encode (r, s)) =? 8)%nat)
               | None => false
               end) (zrange Ref.n)) (zrange Ref.n) = true)
    by (vm_compute; reflexivity).
  pose proof (forallb_zrange _ _ T r ltac:(lia)) as Tr. cbn beta in Tr.
  pose proof (forallb_zrange _ _ Tr s ltac:(lia)) as Ts. cbn beta in Ts.
  destruct (der_sig_decode (der_sig_encode (r, s))) as [[r' s']|]; [|discriminate].
  destruct (Z.eqb_spec r 0); [lia|]. destruct (Z.eqb_spec s 0); [lia|].
  cbn [orb] in Ts.
  apply andb_prop in Ts as [Ts Hlen]. apply andb_prop in Ts as [Er Es].
  apply Z.eqb_eq in Er, Es. apply Nat.eqb_eq in Hlen. subst. auto.
Qed.

Lemma ref_contract : OpenSSL_contract Ref.openssl.
Proof.
  split.
  - intros dgst sig key.
    change (Ref.ECDSA_verify dgst sig key = 1 \/ Ref.ECDSA_verify dgst sig key = 0
            \/ Ref.ECDSA_verify dgst sig key = -1).
    unfold Ref.ECDSA_verify.
    destruct (der_sig_decode sig) as [rs|]; [|auto].
    destruct key as [[priv [Q|]]|]; auto.
    apply ecdsa_do_verify_range.
  - reflexivity.
  - intros rand dgst d q p Q sig Hd Hlen HQ Hsign.
    change (Ref.EC_POINT_mul (Some d) = Some Q) in HQ.
    change (Ref.ECDSA_do_sign rand dgst (Some (mkEC_KEY (Some d) q)) = Some sig)
      in Hsign.
    change (0 < Z.of_nat (length (Ref.i2d_ECDSA_SIG (Some sig))) <= kMaxLength /\
            Ref.ECDSA_verify dgst (Ref.i2d_ECDSA_SIG (Some sig))
              (Some (mkEC_KEY p (Some Q))) = 1).
    unfold Ref.EC_POINT_mul in HQ. injection HQ as <-.
    unfold Ref.ECDSA_do_sign in Hsign. destruct sig as [r s].
    destruct (ecdsa_do_sign_range _ _ _ _ ref_n_prime _ _ _ _ _ Hsign) as [Hr Hs].
    destruct (ref_der_sig_roundtrip r s Hr Hs) as [Hdec Hsize].
    unfold Ref.i2d_ECDSA_SIG, Ref.ECDSA_verify.
    rewrite Hdec, Hsize. split; [unfold kMaxLength; lia|].
    apply (ecdsa_do_sign_verify Ref.point Ref.n (fun k => Ref.mul k Ref.G)
             Ref.lin_comb Ref.affine_x ref_n_prime
             (fun k => ref_mul_mod k Ref.G) ref_lin_comb_gen rand _ d (r, s) Hsign).
Qed.

(** ** The digest length check (C8) *)

Section BindingProperties.
Context {L : OpenSSL}.

Lemma digest_length_rejected (digest : list byte) :
  Buffer_fits digest -> length digest <> 32%nat ->
  (to_unsigned_int (Buffer_Length (Buffer digest)) =? 32) = false.
Proof.
  intros Hfit Hlen. unfold Buffer_Length, Buffer_Data.
  rewrite Buffer_fits_to_unsigned_int by assumption.
  apply Z.eqb_neq. lia.
Qed.

(** C8.  A digest that is not exactly 32 bytes long is refused with the
    InvalidInputError: by [signSync] on a key with private material, and by
    [verifySignatureSync] and [verifySignature] on a key with public
    material.  No signature and no verdict comes out, and no callback is
    queued. *)
Theorem digest_length_checked
    (rand : RAND) (key : BitcoinKey) (digest sig : list byte) (cb : nat) :
  Buffer_fits digest ->
  length digest <> 32%nat ->
  (hasPrivate key = true ->
   SignSync rand key [Buffer digest] = InvalidInputError) /\
  (hasPublic key = true ->
   VerifySignatureSync key [Buffer digest; Buffer sig] = InvalidInputError /\
   verifySignature key [Buffer digest; Buffer sig; Function cb]
   = (InvalidInputError, [])) /\
  is_value InvalidInputError = false /\
  outcome_of_completion InvalidInputError = None.
Proof.
  intros Hfit Hlen.
  pose proof (digest_length_rejected digest Hfit Hlen) as Hrej.
  split; [|split; [|split; reflexivity]].
  - intros Hpriv. unfold SignSync.
    cbn [length Nat.eqb negb arg nth Buffer_HasInstance].
    rewrite Hpriv, Hrej. reflexivity.
  - intros Hpub. split.
    + unfold VerifySignatureSync.
      cbn [length Nat.eqb negb arg nth Buffer_HasInstance].
      rewrite Hpub, Hrej. reflexivity.
    + unfold verifySignature, VerifySignature_args.
      cbn [length Nat.eqb negb arg nth Buffer_HasInstance IsFunction].
      rewrite Hpub.
      assert (E : (Buffer_Length (Buffer digest) =? 32) = false).
      { unfold Buffer_Length, Buffer_Data. apply Z.eqb_neq. lia. }
      rewrite E. reflexivity.
Qed.

(** ** Assigning the private scalar (C9, C10) *)

Lemma SetPrivate_fits (key : BitcoinKey) (data : list byte) :
  Buffer_fits data ->
  SetPrivate key data
  = mkBitcoinKey
      (match ec key with
       | Some e => Some (EC_KEY_set_private_key e (Some (BN_bin2bn data)))
       | None => None
       end)
      (lastError key) true (hasPublic key).
Proof.
  intros Hfit. unfold SetPrivate.
  now rewrite Buffer_fits_to_int, bytes_at_length.
Qed.

(** C9.  [SetPrivate] stores the scalar the bytes spell and sets
    [hasPrivate]; the public point and [hasPublic] stay as they were.  So
    [GetPublic] still answers null for a key without public material, and in
    particular for a newly constructed key that was given a private scalar. *)
Theorem SetPrivate_keeps_public
    (e : EC_KEY) (err : option string) (hpriv hpub : bool) (data : list byte) :
  Buffer_fits data ->
  SetPrivate (mkBitcoinKey (Some e) err hpriv hpub) data
  = mkBitcoinKey (Some (mkEC_KEY (Some (BN_bin2bn data)) (pub_key e))) err true hpub /\
  GetPublic (SetPrivate (mkBitcoinKey (Some e) err hpriv false) data) = Return Null /\
  (forall w, GetPublic (SetPrivate (fst (BitcoinKey_ctor w)) data) = Return Null).
Proof.
  intros Hfit. split; [|split].
  - now rewrite SetPrivate_fits.
  - reflexivity.
  - intros w. unfold BitcoinKey_ctor, EC_KEY_new_by_curve_name, bind, acquire, ret.
    destruct (alloc_ok w) as [|[|] rest]; reflexivity.
Qed.

(** C10.  [SetPrivate] has no failure path: for any bytes it sets
    [hasPrivate] and raises nothing.  Nothing is compared against the order
    of the group: the empty Buffer stores 0, and every number at all, as
    written by [BN_bn2bin], is stored as it is. *)
Theorem SetPrivate_total
    (e : EC_KEY) (err : option string) (hpriv hpub : bool) :
  (forall key data,
     hasPrivate (SetPrivate key data) = true /\
     lastError (SetPrivate key data) = lastError key) /\
  (forall data, exists bn,
     ec (SetPrivate (mkBitcoinKey (Some e) err hpriv hpub) data)
     = Some (mkEC_KEY (Some bn) (pub_key e))) /\
  ec (SetPrivate (mkBitcoinKey (Some e) err hpriv hpub) [])
  = Some (mkEC_KEY (Some 0) (pub_key e)) /\
  (forall z, 0 <= z -> Buffer_fits (BN_bn2bin z) ->
     ec (SetPrivate (mkBitcoinKey (Some e) err hpriv hpub) (BN_bn2bin z))
     = Some (mkEC_KEY (Some z) (pub_key e))).
Proof.
  split; [|split; [|split]].
  - intros key data. split; reflexivity.
  - intros data. eexists. reflexivity.
  - reflexivity.
  - intros z Hz Hfit. rewrite SetPrivate_fits by assumption.
    cbn. unfold EC_KEY_set_private_key. cbn.
    rewrite BN_bin2bn_bn2bin. now rewrite Z.abs_eq.
Qed.

(** ** The offloaded verification (C3) *)

(** With public material and a 32-byte digest, both calls are decided by the
    same call of [VerifySignature]: the [int] that reaches it as the
    signature length is the same on both paths. *)
Lemma VerifySignatureSync_result (key : BitcoinKey) (digest sig : list byte) :
  length digest = 32%nat ->
  hasPublic key = true ->
  let result :=
    VerifySignature key digest 32 sig (to_int (Z.of_nat (length sig))) in
  VerifySignatureSync key [Buffer digest; Buffer sig]
  = (if result =? -1 then ECDSA_verify_error
     else if result =? 0 then Return (Boolean false)
     else if result =? 1 then Return (Boolean true)
     else VException "ECDSA_verify gave undefined return value").
Proof.
  intros Hlen Hpub. unfold VerifySignatureSync.
  cbn [length Nat.eqb negb arg nth Buffer_HasInstance].
  rewrite Hpub. unfold Buffer_Length, Buffer_Data. rewrite Hlen.
  change (Z.of_nat 32) with 32. change (to_unsigned_int 32) with 32.
  change (32 =? 32) with true. cbn [negb].
  rewrite to_int_to_unsigned_int. reflexivity.
Qed.

Lemma verifySignature_result (key : BitcoinKey) (digest sig : list byte) (cb : nat) :
  length digest = 32%nat ->
  hasPublic key = true ->
  let result :=
    VerifySignature key digest 32 sig (to_int (Z.of_nat (length sig))) in
  verifySignature key [Buffer digest; Buffer sig; Function cb]
  = (Return Undefined,
     [mkCall (Function cb)
        (if result =? -1 then [TypeError "Error during ECDSA_verify"; Null]
         else if result =? 0 then [Null; Boolean false]
         else if result =? 1 then [Null; Boolean true]
         else [TypeError "ECDSA_verify gave undefined return value"; Null])]).
Proof.
  intros Hlen Hpub. unfold verifySignature, VerifySignature_args.
  cbn [length Nat.eqb negb arg nth Buffer_HasInstance IsFunction].
  rewrite Hpub. unfold Buffer_Length, Buffer_Data. rewrite Hlen.
  change (Z.of_nat 32) with 32. change (32 =? 32) with true.
  reflexivity.
Qed.

(** C3.  For a 32-byte digest, [verifySignature] hands its callback the
    verdict that [verifySignatureSync] gives for the same key, digest and
    signature: when the synchronous call yields one of the three outcomes,
    the offloaded one returns and makes exactly one call, of the callback,
    with that outcome; when the synchronous call yields none (the key has no
    public material, or the library's result is none of 1, 0, -1), no call
    carries one. *)
Theorem verifySignature_agrees
    (key : BitcoinKey) (digest sig : list byte) (cb : nat) :
  length digest = 32%nat ->
  match outcome_of_completion (VerifySignatureSync key [Buffer digest; Buffer sig]) with
  | Some o =>
    exists call,
      verifySignature key [Buffer digest; Buffer sig; Function cb]
      = (Return Undefined, [call]) /\
      callee call = Function cb /\
      outcome_of_call call = Some o
  | None =>
    forall call,
      In call (snd (verifySignature key [Buffer digest; Buffer sig; Function cb])) ->
      outcome_of_call call = None
  end.
Proof.
  intros Hlen.
  destruct (hasPublic key) eqn:Hpub.
  - rewrite (VerifySignatureSync_result key digest sig Hlen Hpub).
    rewrite (verifySignature_result key digest sig cb Hlen Hpub).
    cbv zeta.
    destruct (_ =? -1); [|destruct (_ =? 0); [|destruct (_ =? 1)]]; cbn.
    + eexists; repeat split.
    + eexists; repeat split.
    + eexists; repeat split.
    + intros call [<-|[]]. reflexivity.
  - unfold VerifySignatureSync, verifySignature, VerifySignature_args.
    cbn [length Nat.eqb negb arg nth Buffer_HasInstance IsFunction].
    rewrite Hpub. cbn. intros call [].
Qed.

(** With a digest of another length both calls throw the InvalidInputError
    and nothing is queued (C8 above); so the two agree on every digest that
    fits a Buffer. *)
Lemma verifySignature_agrees_any_length
    (key : BitcoinKey) (digest sig : list byte) (cb : nat) :
  Buffer_fits digest ->
  length digest <> 32%nat ->
  outcome_of_completion (VerifySignatureSync key [Buffer digest; Buffer sig]) = None /\
  snd (verifySignature key [Buffer digest; Buffer sig; Function cb]) = [].
Proof.
  intros Hfit Hlen.
  assert (Hu : (to_unsigned_int (Buffer_Length (Buffer digest)) =? 32) = false)
    by now apply digest_length_rejected.
  assert (Hs : (Buffer_Length (Buffer digest) =? 32) = false).
  { unfold Buffer_Length, Buffer_Data. apply Z.eqb_neq. lia. }
  unfold VerifySignatureSync, verifySignature, VerifySignature_args.
  cbn [length Nat.eqb negb arg nth Buffer_HasInstance IsFunction].
  rewrite Hu, Hs. destruct (hasPublic key); split; reflexivity.
Qed.

(** ** Regeneration (C4) *)

(** C4, as the code has it.  [RegenerateSync] on a key with private material
    returns undefined and releases the old container exactly once, whatever
    the library calls do.  When they succeed, the key ends with a container
    that holds the old private scalar and the point [scalar * generator], and
    with [hasPublic] set; when one of them fails, [hasPublic] is as before. *)
Theorem RegenerateSync_replaces
    (e : EC_KEY) (err : option string) (hpub : bool) (w : World) :
  let r := RegenerateSync (mkBitcoinKey (Some e) err true hpub) w in
  fst (fst r) = Return Undefined /\
  freed (snd r) = freed w ++ [e] /\
  hasPrivate (snd (fst r)) = true /\
  (forall Q,
     forallb (fun ok => ok) (firstn 3 (alloc_ok w)) = true ->
     EC_POINT_mul (priv_key e) = Some Q ->
     snd (fst r)
     = mkBitcoinKey (Some (mkEC_KEY (priv_key e) (Some Q))) err true true) /\
  (forallb (fun ok => ok) (firstn 3 (alloc_ok w)) = false \/
   EC_POINT_mul (priv_key e) = None ->
   hasPublic (snd (fst r)) = hpub).
Proof.
  unfold RegenerateSync, EC_KEY_regenerate_key, EC_KEY_new_by_curve_name,
    BN_CTX_new, EC_POINT_new, EC_KEY_free, bind, ret, acquire.
  destruct w as [[|[|] [|[|] [|[|] rest]]] released];
    cbn -[EC_POINT_mul];
    try destruct (EC_POINT_mul (priv_key e)) as [pub|];
    cbn -[EC_POINT_mul];
    (split; [reflexivity|split; [reflexivity|split; [reflexivity|split]]]);
    try (intros Q Hok HQ; try discriminate; injection HQ as <-; reflexivity);
    try (intros [Hfail|Hfail]; try discriminate; reflexivity).
Qed.

(** ** What the code does where C5, C6 and C7 ask for more *)

(** [SetPublic] on bytes that do not decode: the key holds whatever
    [o2i_ECPublicKey] left in its container, the flags are as before, and
    nothing is raised or recorded. *)
Lemma SetPublic_decode_failure (key : BitcoinKey) (data : list byte) :
  fst (o2i_ECPublicKey (ec key) data) = false ->
  SetPublic key data
  = mkBitcoinKey (snd (o2i_ECPublicKey (ec key) data))
                 (lastError key) (hasPrivate key) (hasPublic key).
Proof.
  intros Hfail. unfold SetPublic.
  destruct (o2i_ECPublicKey (ec key) data) as [ok e]. cbn in Hfail.
  now rewrite Hfail.
Qed.

(** Whatever [FromDER] is given, the object it returns wraps a key that the
    constructor has just made: no material, both flags unset. *)
Lemma FromDER_returns_new_key (args : list Value) (w : World) (k : BitcoinKey) :
  fst (FromDER args w) = Return (Wrapped k) ->
  k = mkBitcoinKey (Some (mkEC_KEY None None)) None false false.
Proof.
  unfold FromDER, New_args, BitcoinKey_ctor, EC_KEY_new_by_curve_name,
    bind, ret, acquire.
  destruct (negb (length args =? 1)%nat); [discriminate|].
  destruct (negb (Buffer_HasInstance (arg args 0))); [discriminate|].
  destruct w as [[|[|] [|[|] rest]] released]; cbn -[d2i_ECPrivateKey];
    try discriminate;
    destruct (d2i_ECPrivateKey _ _); cbn; try discriminate;
    now intros [= <-].
Qed.

Lemma malloc_firstn (heap : nat -> byte) (n m : nat) :
  (n <= m)%nat -> firstn n (malloc heap m) = malloc heap n.
Proof.
  intros Hle. unfold malloc. rewrite firstn_map. f_equal.
  replace m with (n + (m - n))%nat by lia.
  rewrite seq_app, firstn_app, length_seq, Nat.sub_diag, firstn_O, app_nil_r.
  apply firstn_all2. rewrite length_seq. lia.
Qed.

(** [GetPrivate] on a scalar of at most 32 bytes: the big-endian bytes of the
    scalar, preceded by as many bytes of the block [malloc] returned as it
    takes to make 32. *)
Lemma GetPrivate_bytes
    (heap : nat -> byte) (e : EC_KEY) (err : option string) (hpub : bool) (d : Z) :
  priv_key e = Some d ->
  BN_num_bytes d <= 32 ->
  GetPrivate heap (mkBitcoinKey (Some e) err true hpub)
  = Return (Buffer (malloc heap (Z.to_nat (32 - BN_num_bytes d)) ++ BN_bn2bin d)).
Proof.
  intros Hd Hsize. unfold GetPrivate. cbn [hasPrivate negb ec EC_KEY_get0_private_key].
  rewrite Hd.
  destruct (Z.gtb_spec (BN_num_bytes d) 32) as [|_]; [lia|].
  rewrite length_BN_bn2bin, Z.eqb_refl. cbn [negb].
  pose proof (BN_num_bytes_nonneg d) as Hnn.
  pose proof (length_BN_bn2bin d) as Hlen.
  unfold store_at.
  set (off := Z.to_nat (32 - BN_num_bytes d)).
  assert (Hoff : (off + length (BN_bn2bin d) = 32)%nat) by (unfold off; lia).
  rewrite Hoff, malloc_firstn by lia.
  rewrite skipn_all2 by (unfold malloc; rewrite length_map, length_seq; lia).
  rewrite app_nil_r. do 2 f_equal.
  apply firstn_all2. rewrite length_app.
  unfold malloc. rewrite length_map, length_seq. lia.
Qed.

(** [GetPrivate] answers null both for a key without private material and
    for a scalar of more than 32 bytes. *)
Lemma GetPrivate_null
    (heap : nat -> byte) (e : EC_KEY) (err : option string) (hpub : bool) (d : Z) :
  GetPrivate heap (mkBitcoinKey (Some e) err false hpub) = Return Null /\
  (priv_key e = Some d -> 32 < BN_num_bytes d ->
   GetPrivate heap (mkBitcoinKey (Some e) err true hpub) = Return Null).
Proof.
  split; [reflexivity|].
  intros Hd Hsize. unfold GetPrivate. cbn [hasPrivate negb ec EC_KEY_get0_private_key].
  rewrite Hd. destruct (Z.gtb_spec (BN_num_bytes d) 32); [reflexivity | lia].
Qed.

End BindingProperties.

Section UnderContract.
Context {L : OpenSSL} {C : OpenSSL_contract L}.

Lemma bytes_at_32 (digest : list byte) :
  length digest = 32%nat -> bytes_at digest 32 = digest.
Proof.
  intros Hlen. unfold bytes_at. apply firstn_all2. rewrite Hlen. cbn. lia.
Qed.

(** ** The three results of a verification (C2) *)

(** C2, as the code has it.  On a key with public material and a 32-byte
    digest, [VerifySignatureSync] ends in one of three ways that the caller
    can tell apart, one for each result of [ECDSA_verify]: it returns true
    for 1, returns false for 0, and throws the error "Error during
    ECDSA_verify" for -1.  The third is a throw, not a value. *)
Theorem VerifySignatureSync_three_way
    (key : BitcoinKey) (digest sig : list byte) :
  hasPublic key = true ->
  length digest = 32%nat ->
  let result :=
    ECDSA_verify digest (bytes_at sig (to_int (Z.of_nat (length sig)))) (ec key) in
  let c := VerifySignatureSync key [Buffer digest; Buffer sig] in
  ((result = 1 /\ c = Return (Boolean true)) \/
   (result = 0 /\ c = Return (Boolean false)) \/
   (result = -1 /\ c = ECDSA_verify_error)) /\
  outcome_of_completion c = outcome_of_result result /\
  is_value ECDSA_verify_error = false /\
  Return (Boolean true) <> Return (Boolean false) /\
  Return (Boolean true) <> ECDSA_verify_error /\
  Return (Boolean false) <> ECDSA_verify_error.
Proof.
  intros Hpub Hlen result c. subst c.
  rewrite (VerifySignatureSync_result key digest sig Hlen Hpub).
  cbv zeta. unfold VerifySignature. rewrite (bytes_at_32 digest Hlen).
  fold result.
  split; [|split; [|split; [reflexivity|repeat split; discriminate]]].
  - destruct (ECDSA_verify_range digest
                (bytes_at sig (to_int (Z.of_nat (length sig)))) (ec key))
      as [E|[E|E]]; fold result in E; rewrite E; cbn; auto.
  - unfold outcome_of_result.
    destruct (Z.eqb_spec result (-1)) as [E|E1]; [rewrite E; reflexivity|].
    destruct (Z.eqb_spec result 0) as [E|E0]; [rewrite E; reflexivity|].
    destruct (Z.eqb_spec result 1) as [E|E2]; [reflexivity | reflexivity].
Qed.

(** ** Signing and then verifying (C1) *)

(** C1, as the code has it.  Take a key whose public point is its private
    scalar times the generator, the scalar in [1, order - 1], and a 32-byte
    digest.  Whenever the library makes a signature, [SignSync] returns its
    DER encoding, and [VerifySignatureSync] on that encoding, the same key
    and the same digest returns true.  (A key with a public point of its own
    is enough to verify: the private part of the verifying key is not
    read.) *)
Theorem sign_then_verify
    (rand : RAND) (d : Z) (Q : EC_POINT) (err : option string)
    (digest : list byte) (sig : ECDSA_SIG) :
  1 <= d < order ->
  EC_POINT_mul (Some d) = Some Q ->
  length digest = 32%nat ->
  ECDSA_do_sign rand digest (Some (mkEC_KEY (Some d) (Some Q))) = Some sig ->
  SignSync rand (mkBitcoinKey (Some (mkEC_KEY (Some d) (Some Q))) err true true)
           [Buffer digest]
  = Return (Buffer (i2d_ECDSA_SIG (Some sig))) /\
  forall p hpriv,
    VerifySignatureSync
      (mkBitcoinKey (Some (mkEC_KEY p (Some Q))) err hpriv true)
      [Buffer digest; Buffer (i2d_ECDSA_SIG (Some sig))]
    = Return (Boolean true).
Proof.
  intros Hd HQ Hlen Hsign.
  destruct (ECDSA_sign_verify rand digest d (Some Q) (Some d) Q sig Hd Hlen HQ Hsign)
    as [Hsize _].
  split.
  - unfold SignSync.
    cbn [length Nat.eqb negb arg nth Buffer_HasInstance hasPrivate].
    unfold Buffer_Length, Buffer_Data, Sign. rewrite Hlen.
    change (Z.of_nat 32) with 32. change (to_unsigned_int 32) with 32.
    change (32 =? 32) with true. change (to_int 32) with 32. cbn [negb ec].
    rewrite (bytes_at_32 digest Hlen), Hsign.
    destruct (Z.eqb_spec (Z.of_nat (length (i2d_ECDSA_SIG (Some sig)))) 0) as [E|_];
      [lia|].
    rewrite Z.eqb_refl. reflexivity.
  - intros p hpriv.
    destruct (ECDSA_sign_verify rand digest d (Some Q) p Q sig Hd Hlen HQ Hsign)
      as [_ Hverify].
    rewrite (VerifySignatureSync_result
               (mkBitcoinKey (Some (mkEC_KEY p (Some Q))) err hpriv true)
               digest _ Hlen eq_refl).
    cbv zeta. unfold VerifySignature.
    rewrite (bytes_at_32 digest Hlen), to_int_fits by lia.
    rewrite bytes_at_length. cbn [ec]. rewrite Hverify. reflexivity.
Qed.

End UnderContract.

(** ** Runs on the reference implementation *)

Section Runs.
Import Example.
#[local] Existing Instance Ref.openssl.

(** The keys of [Example] are keys a script can make: by the constructor,
    by [SetPrivate], by [RegenerateSync] after it, and by [SetPublic] after
    [SetPrivate] with the encoding of another point. *)
Lemma example_keys_reachable :
  fst (BitcoinKey_ctor fresh_world) = empty_key /\
  SetPrivate empty_key [x09] = private_only_key /\
  snd (fst (RegenerateSync (SetPrivate empty_key [x05]) fresh_world)) = pair_key /\
  SetPublic (SetPrivate empty_key [x05]) [x04; x1d; x1f] = mismatched_key.
Proof.
  split; [|split; [|split]]; reflexivity.
Qed.

(** C1: with private and public material that do not belong together,
    [SignSync] returns a signature and [VerifySignatureSync] rejects it. *)
Lemma sign_then_verify_mismatched :
  hasPrivate mismatched_key = true /\ hasPublic mismatched_key = true /\
  length digest32 = 32%nat /\
  SignSync rand mismatched_key [Buffer digest32] = Return (Buffer signature) /\
  VerifySignatureSync mismatched_key [Buffer digest32; Buffer signature]
  = Return (Boolean false).
Proof.
  split; [|split; [|split; [|split]]]; reflexivity.
Qed.

Lemma sign_then_verify_witness :
  1 <= 5 < order /\
  EC_POINT_mul (Some 5) = Some (Ref.Aff 12 12) /\
  length digest32 = 32%nat /\
  ECDSA_do_sign rand digest32 (ec pair_key) = Some (25, 15) /\
  SignSync rand pair_key [Buffer digest32] = Return (Buffer signature) /\
  VerifySignatureSync pair_key [Buffer digest32; Buffer signature]
  = Return (Boolean true).
Proof.
  assert (Hd : 1 <= 5 < order) by (change (1 <= 5 < 31); lia).
  assert (HQ : EC_POINT_mul (Some 5) = Some (Ref.Aff 12 12)) by reflexivity.
  assert (Hlen : length digest32 = 32%nat) by reflexivity.
  assert (Hsign : ECDSA_do_sign rand digest32 (ec pair_key) = Some (25, 15))
    by reflexivity.
  destruct (sign_then_verify (C := ref_contract) rand 5 (Ref.Aff 12 12) None
              digest32 (25, 15) Hd HQ Hlen Hsign) as [Hs Hv].
  split; [exact Hd|split; [exact HQ|split; [exact Hlen|split; [exact Hsign|]]]].
  split; [exact Hs | exact (Hv (Some 5) true)].
Defined.

(** C2: a signature that is no DER at all makes [VerifySignatureSync] throw;
    the indeterminate outcome is not a value the call returns. *)
Lemma verify_malformed_signature_throws :
  hasPublic pair_key = true /\ length digest32 = 32%nat /\
  ECDSA_verify digest32 [] (ec pair_key) = -1 /\
  VerifySignatureSync pair_key [Buffer digest32; Buffer []]
  = Throw (Error "Error during ECDSA_verify") /\
  is_value (VerifySignatureSync pair_key [Buffer digest32; Buffer []]) = false.
Proof.
  split; [|split; [|split; [|split]]]; reflexivity.
Qed.

Lemma VerifySignatureSync_three_way_witness :
  hasPublic pair_key = true /\ length digest32 = 32%nat /\
  VerifySignatureSync pair_key [Buffer digest32; Buffer signature]
  = Return (Boolean true) /\
  outcome_of_completion
    (VerifySignatureSync pair_key [Buffer digest32; Buffer signature])
  = Some Valid.
Proof.
  assert (Hpub : hasPublic pair_key = true) by reflexivity.
  assert (Hlen : length digest32 = 32%nat) by reflexivity.
  destruct (VerifySignatureSync_three_way (C := ref_contract) pair_key digest32
              signature Hpub Hlen) as [_ [Hout _]].
  split; [exact Hpub|split; [exact Hlen|split; [reflexivity|exact Hout]]].
Defined.

(** C3: the offloaded verification of a good signature calls back once, with
    [(null, true)]. *)
Lemma verifySignature_agrees_witness :
  length digest32 = 32%nat /\
  exists call,
    verifySignature pair_key [Buffer digest32; Buffer signature; Function 0]
    = (Return Undefined, [call]) /\
    callee call = Function 0 /\
    outcome_of_call call = Some Valid.
Proof.
  assert (Hlen : length digest32 = 32%nat) by reflexivity.
  split; [exact Hlen|].
  exact (verifySignature_agrees pair_key digest32 signature 0 Hlen).
Defined.

(** C4: when the library fails while the point is recomputed, the key ends
    with the new, empty container; the container that held the scalar 9 has
    been released, and [hasPrivate] still says true. *)
Lemma regenerate_failure_drops_container :
  let r := RegenerateSync private_only_key failing_world in
  hasPrivate private_only_key = true /\
  ec private_only_key = Some (mkEC_KEY (Some 9) None) /\
  fst (fst r) = Return Undefined /\
  hasPublic (snd (fst r)) = false /\
  ec (snd (fst r)) = Some (mkEC_KEY None None) /\
  ec (snd (fst r)) <> ec private_only_key /\
  freed (snd r) = [mkEC_KEY (Some 9) None].
Proof.
  cbv zeta.
  split; [|split; [|split; [|split; [|split; [|split]]]]];
    try reflexivity.
  discriminate.
Qed.

Lemma RegenerateSync_replaces_witness :
  forallb (fun ok => ok) (firstn 3 (alloc_ok fresh_world)) = true /\
  EC_POINT_mul (Some 9) = Some (Ref.Aff 20 40) /\
  snd (fst (RegenerateSync private_only_key fresh_world))
  = mkBitcoinKey (Some (mkEC_KEY (Some 9) (Some (Ref.Aff 20 40)))) None true true /\
  freed (snd (RegenerateSync private_only_key fresh_world))
  = [mkEC_KEY (Some 9) None].
Proof.
  destruct (RegenerateSync_replaces (mkEC_KEY (Some 9) None) None false fresh_world)
    as (_ & Hfreed & _ & Hok & _).
  split; [reflexivity|split; [reflexivity|split]].
  - exact (Hok (Ref.Aff 20 40) eq_refl eq_refl).
  - exact Hfreed.
Defined.

(** C5: [SetPublic] with an encoding of (2, 13), which is not on the curve.
    The call raises nothing and records nothing; the key has lost its point
    (12, 12), holds (2, 13) in its place, and still says [hasPublic]. *)
Lemma SetPublic_malformed_is_silent :
  Ref.on_curve (Ref.Aff 2 13) = false /\
  fst (o2i_ECPublicKey (ec pair_key) [x04; x02; x0d]) = false /\
  SetPublic pair_key [x04; x02; x0d]
  = mkBitcoinKey (Some (mkEC_KEY (Some 5) (Some (Ref.Aff 2 13)))) None true true /\
  GetPublic (SetPublic pair_key [x04; x02; x0d]) = Return (Buffer [x04; x02; x0d]) /\
  GetPublic pair_key = Return (Buffer [x04; x0c; x0c]) /\
  SetPublic pair_key [] = pair_key.
Proof.
  split; [|split; [|split; [|split; [|split]]]]; reflexivity.
Qed.

(** C6: the DER of a key pair decodes, in the library, to the same scalar
    and point; [FromDER] nevertheless returns an object that wraps a key
    without material. *)
Lemma FromDER_ToDER_loses_key :
  exists der,
    ToDER pair_key = Return (Buffer der) /\
    d2i_ECPrivateKey (Some (mkEC_KEY None None)) der = ec pair_key /\
    fst (FromDER [Buffer der] fresh_world) = Return (Wrapped empty_key) /\
    hasPrivate empty_key = false /\ hasPublic empty_key = false /\
    Wrapped empty_key <> Wrapped pair_key.
Proof.
  eexists.
  split; [reflexivity|split; [|split; [|split; [|split]]]]; try reflexivity.
  discriminate.
Qed.

(** C7: with a scalar of one byte, the 31 bytes in front of it are the
    heap's, not zeros; and a scalar of 33 bytes gets the answer null, the one
    a key without private material gets. *)
Lemma GetPrivate_padding_and_oversize :
  GetPrivate used_heap pair_key = Return (Buffer (repeat xaa 31 ++ [x05])) /\
  GetPrivate used_heap pair_key <> Return (Buffer (repeat x00 31 ++ [x05])) /\
  BN_num_bytes (BN_bin2bn (x01 :: repeat x00 32)) = 33 /\
  GetPrivate used_heap (SetPrivate pair_key (x01 :: repeat x00 32)) = Return Null /\
  GetPrivate used_heap empty_key = Return Null.
Proof.
  split; [|split; [|split; [|split]]]; try reflexivity.
  discriminate.
Qed.

(** C8 at the lengths 0, 1, 31, 33 and 64. *)
Lemma digest_length_checked_witness :
  Forall
    (fun n =>
       Buffer_fits (repeat x00 n) /\ length (repeat x00 n) <> 32%nat /\
       SignSync rand pair_key [Buffer (repeat x00 n)] = InvalidInputError /\
       VerifySignatureSync pair_key [Buffer (repeat x00 n); Buffer signature]
       = InvalidInputError /\
       verifySignature pair_key [Buffer (repeat x00 n); Buffer signature; Function 0]
       = (InvalidInputError, []))
    [0; 1; 31; 33; 64]%nat.
Proof.
  assert (H : forall n, (n < 100)%nat -> n <> 32%nat ->
            Buffer_fits (repeat x00 n) /\ length (repeat x00 n) <> 32%nat /\
            SignSync rand pair_key [Buffer (repeat x00 n)] = InvalidInputError /\
            VerifySignatureSync pair_key [Buffer (repeat x00 n); Buffer signature]
            = InvalidInputError /\
            verifySignature pair_key
              [Buffer (repeat x00 n); Buffer signature; Function 0]
            = (InvalidInputError, [])).
  { intros n Hn Hne.
    assert (Hfit : Buffer_fits (repeat x00 n))
      by (unfold Buffer_fits, kMaxLength; rewrite repeat_length; lia).
    assert (Hlen : length (repeat x00 n) <> 32%nat) by now rewrite repeat_length.
    destruct (digest_length_checked rand pair_key (repeat x00 n) signature 0
                Hfit Hlen) as (Hsign & Hverify & _).
    destruct (Hverify eq_refl) as [Hsync Hasync].
    repeat (split; [assumption|]). split; [exact (Hsign eq_refl)|].
    split; assumption. }
  repeat constructor; apply H; lia.
Defined.

(** C9 on a new key that is given the scalar 9: no public key until
    [RegenerateSync], the point [9 * G = (20, 40)] after it. *)
Lemma SetPrivate_keeps_public_witness :
  Buffer_fits [x09] /\
  SetPrivate empty_key [x09]
  = mkBitcoinKey (Some (mkEC_KEY (Some 9) None)) None true false /\
  GetPublic (SetPrivate empty_key [x09]) = Return Null /\
  GetPublic (snd (fst (RegenerateSync (SetPrivate empty_key [x09]) fresh_world)))
  = Return (Buffer [x04; x14; x28]).
Proof.
  assert (Hfit : Buffer_fits [x09]) by (unfold Buffer_fits, kMaxLength; cbn; lia).
  destruct (SetPrivate_keeps_public (mkEC_KEY None None) None false false [x09] Hfit)
    as (Hset & Hget & _).
  split; [exact Hfit|split; [exact Hset|split; [exact Hget|reflexivity]]].
Defined.

(** C10 on a new key: 40 bytes of 0xff, the empty Buffer, the order of the
    group and 2^256. *)
Lemma SetPrivate_total_witness :
  hasPrivate (SetPrivate empty_key (repeat xff 40)) = true /\
  ec (SetPrivate empty_key []) = Some (mkEC_KEY (Some 0) None) /\
  ec (SetPrivate empty_key (BN_bn2bin order)) = Some (mkEC_KEY (Some order) None) /\
  ec (SetPrivate empty_key (BN_bn2bin (2 ^ 256)))
  = Some (mkEC_KEY (Some (2 ^ 256)) None).
Proof.
  destruct (SetPrivate_total (mkEC_KEY None None) None false false)
    as (Hall & _ & Hzero & Hany).
  split; [exact (proj1 (Hall empty_key (repeat xff 40)))|].
  split; [exact Hzero|].
  split; apply Hany; try (vm_compute; discriminate).
Defined.

End Runs.

(** * Further properties of the bindings *)

(** ** The private scalar read back *)

Lemma byte_of_val (b : byte) : byte_of (byte_val b) = b.
Proof.
  unfold byte_of. rewrite Z.mod_small by apply byte_val_range.
  unfold byte_val. rewrite N2Z.id, Byte.of_to_N. reflexivity.
Qed.

Lemma byte_val_nonzero (b : byte) : b <> x00 -> byte_val b <> 0.
Proof.
  intros Hb Hz. apply Hb. rewrite <- (byte_of_val b), Hz. reflexivity.
Qed.

Lemma BN_bin2bn_snoc (s : list byte) (b : byte) :
  BN_bin2bn (s ++ [b]) = BN_bin2bn s * 256 + byte_val b.
Proof.
  rewrite BN_bin2bn_app. cbn [length].
  change (256 ^ Z.of_nat 1) with 256. unfold BN_bin2bn at 2. cbn. lia.
Qed.

Lemma BN_bin2bn_bound (s : list byte) : BN_bin2bn s < 256 ^ Z.of_nat (length s).
Proof.
  induction s as [|b s IH] using rev_ind.
  - cbn. lia.
  - rewrite BN_bin2bn_snoc, length_app. cbn [length].
    rewrite Nat2Z.inj_add, Z.pow_add_r by lia.
    change (256 ^ Z.of_nat 1) with 256.
    pose proof (byte_val_range b). lia.
Qed.

(** Writing a number on as many bytes as it was read from gives the bytes
    back. *)
Lemma be_bytes_bin2bn (data : list byte) :
  be_bytes (length data) (BN_bin2bn data) = data.
Proof.
  induction data as [|b s IH] using rev_ind; [reflexivity|].
  rewrite length_app, Nat.add_comm. cbn [length Nat.add be_bytes].
  rewrite BN_bin2bn_snoc.
  pose proof (byte_val_range b) as Hb.
  replace ((BN_bin2bn s * 256 + byte_val b) / 256) with (BN_bin2bn s)
    by (apply Z.div_unique with (r := byte_val b); lia).
  rewrite IH. f_equal. f_equal.
  unfold byte_of.
  replace ((BN_bin2bn s * 256 + byte_val b) mod 256) with (byte_val b)
    by (apply Z.mod_unique with (q := BN_bin2bn s); lia).
  fold (byte_of (byte_val b)).
  rewrite <- (byte_of_val b) at 2. unfold byte_of.
  now rewrite Z.mod_small by assumption.
Qed.

(** Bytes that do not start with a zero byte are as long as the number they
    spell. *)
Lemma BN_num_bytes_bin2bn (b : byte) (t : list byte) :
  b <> x00 -> BN_num_bytes (BN_bin2bn (b :: t)) = Z.of_nat (length (b :: t)).
Proof.
  intros Hb. apply byte_val_nonzero in Hb.
  pose proof (byte_val_range b) as Hr.
  pose proof (BN_bin2bn_bound (b :: t)) as Hup.
  pose proof (BN_bin2bn_nonneg t) as Ht.
  assert (Hlow : 256 ^ Z.of_nat (length t) <= BN_bin2bn (b :: t)).
  { change (b :: t) with ([b] ++ t). rewrite BN_bin2bn_app.
    assert (E : BN_bin2bn [b] = byte_val b) by (unfold BN_bin2bn; cbn; lia).
    rewrite E.
    assert (0 < 256 ^ Z.of_nat (length t)) by (apply Z.pow_pos_nonneg; lia).
    nia. }
  cbn [length] in *. rewrite Nat2Z.inj_succ in *.
  set (n := Z.of_nat (length t)) in *.
  assert (Hn : 0 <= n) by (unfold n; lia).
  set (v := BN_bin2bn (b :: t)) in *.
  assert (Hv : 0 < v) by (assert (0 < 256 ^ n) by (apply Z.pow_pos_nonneg; lia); lia).
  unfold BN_num_bytes, BN_num_bits. rewrite Z.abs_eq by lia.
  destruct (Z.eqb_spec v 0); [lia|].
  change 256 with (2 ^ 8) in Hlow, Hup.
  rewrite <- Z.pow_mul_r in Hlow, Hup by lia.
  apply Z.log2_le_pow2 in Hlow; [|exact Hv].
  apply Z.log2_lt_pow2 in Hup; [|exact Hv].
  symmetry. apply Z.div_unique with (r := Z.log2 v - 8 * n); lia.
Qed.

Lemma BN_bn2bin_bin2bn (data : list byte) :
  hd x01 data <> x00 -> BN_bn2bin (BN_bin2bn data) = data.
Proof.
  intros Hhd. unfold BN_bn2bin.
  rewrite Z.abs_eq by apply BN_bin2bn_nonneg.
  destruct data as [|b t]; [reflexivity|].
  cbn [hd] in Hhd. rewrite (BN_num_bytes_bin2bn b t Hhd), Nat2Z.id.
  apply be_bytes_bin2bn.
Qed.

Section FurtherProperties.
Context {L : OpenSSL}.

(** X1.  Bytes that do not start with a zero byte, 32 at most, come back
    from [GetPrivate] after [SetPrivate]: preceded by what the block from
    [malloc] held when they are fewer than 32, and as they are when they are
    32. *)
Theorem GetPrivate_SetPrivate_round_trip
    (heap : nat -> byte) (e : EC_KEY) (err : option string) (hpriv hpub : bool)
    (data : list byte) :
  (length data <= 32)%nat ->
  hd x01 data <> x00 ->
  GetPrivate heap (SetPrivate (mkBitcoinKey (Some e) err hpriv hpub) data)
  = Return (Buffer (malloc heap (32 - length data) ++ data)) /\
  (length data = 32%nat ->
   GetPrivate heap (SetPrivate (mkBitcoinKey (Some e) err hpriv hpub) data)
   = Return (Buffer data)).
Proof.
  intros Hlen Hhd.
  assert (Hfit : Buffer_fits data) by (unfold Buffer_fits, kMaxLength; lia).
  assert (Hsize : BN_num_bytes (BN_bin2bn data) = Z.of_nat (length data)).
  { destruct data as [|b t]; [reflexivity|]. now apply BN_num_bytes_bin2bn. }
  assert (E : GetPrivate heap (SetPrivate (mkBitcoinKey (Some e) err hpriv hpub) data)
              = Return (Buffer (malloc heap (32 - length data) ++ data))).
  { rewrite SetPrivate_fits by assumption. cbn [ec lastError hasPublic].
    rewrite (GetPrivate_bytes heap
               (EC_KEY_set_private_key e (Some (BN_bin2bn data)))
               err hpub (BN_bin2bn data) eq_refl) by lia.
    rewrite Hsize, BN_bn2bin_bin2bn by assumption.
    replace (Z.to_nat (32 - Z.of_nat (length data))) with (32 - length data)%nat
      by lia.
    reflexivity. }
  split; [exact E|].
  intros H32. rewrite E, H32. reflexivity.
Qed.

(** X2.  A Buffer that [GetPrivate] returns has 32 bytes, whatever the key
    and the heap; the key has private material, its scalar takes 32 bytes at
    most, and the bytes of the Buffer from that many before its end spell the
    scalar. *)
Theorem GetPrivate_fixed_width
    (heap : nat -> byte) (key : BitcoinKey) (out : list byte) :
  GetPrivate heap key = Return (Buffer out) ->
  length out = 32%nat /\
  hasPrivate key = true /\
  exists d,
    EC_KEY_get0_private_key (ec key) = Some d /\
    BN_num_bytes d <= 32 /\
    BN_bin2bn (skipn (Z.to_nat (32 - BN_num_bytes d)) out) = Z.abs d.
Proof.
  destruct key as [[e|] err hpriv hpub]; destruct hpriv; try discriminate.
  destruct (priv_key e) as [d|] eqn:Hd;
    [|unfold GetPrivate; cbn; rewrite Hd; discriminate].
  destruct (Z.le_gt_cases (BN_num_bytes d) 32) as [Hsize|Hsize].
  - rewrite (GetPrivate_bytes heap e err hpub d Hd Hsize).
    intros H.
    apply (f_equal (fun c => match c with
                             | Return (Buffer o) => o
                             | _ => []
                             end)) in H.
    cbv beta iota in H. subst out.
    pose proof (BN_num_bytes_nonneg d) as Hnn.
    pose proof (length_BN_bn2bin d) as Hlen.
    assert (Hm : length (malloc heap (Z.to_nat (32 - BN_num_bytes d)))
                 = Z.to_nat (32 - BN_num_bytes d))
      by (unfold malloc; now rewrite length_map, length_seq).
    split; [rewrite length_app, Hm; lia|].
    split; [reflexivity|].
    exists d. split; [exact Hd|]. split; [exact Hsize|].
    rewrite skipn_app, Hm, Nat.sub_diag, skipn_O.
    rewrite skipn_all2 by lia. apply BN_bin2bn_bn2bin.
  - destruct (GetPrivate_null heap e err hpub d) as [_ Hnull].
    rewrite (Hnull Hd Hsize). discriminate.
Qed.

End FurtherProperties.

(** ** What the calls check before they work *)

Section CallChecks.
Context {L : OpenSSL}.

(** X3.  A key that lacks the material a call needs.  The calls that make a
    signature, a verdict or a point throw, and name the missing part, before
    they look at the length of the digest; the exporters answer null.
    Nothing is assigned to, nothing is acquired or released, and no callback
    is queued. *)
Theorem missing_material_refused
    (rand : RAND) (heap : nat -> byte) (key : BitcoinKey) (w : World)
    (digest sig : list byte) (cb : nat) :
  (hasPrivate key = false ->
   SignSync rand key [Buffer digest]
   = VException "BitcoinKey does not have a private key set" /\
   RegenerateSync key w
   = (VException "Regeneration requires a private key.", key, w) /\
   GetPrivate heap key = Return Null) /\
  (hasPublic key = false ->
   VerifySignatureSync key [Buffer digest; Buffer sig]
   = VException "BitcoinKey does not have a public key set" /\
   verifySignature key [Buffer digest; Buffer sig; Function cb]
   = (VException "BitcoinKey does not have a public key set", []) /\
   GetPublic key = Return Null) /\
  (hasPrivate key = false \/ hasPublic key = false -> ToDER key = Return Null).
Proof.
  split; [|split].
  - intros Hpriv. unfold SignSync, RegenerateSync, GetPrivate.
    cbn [length Nat.eqb negb arg nth Buffer_HasInstance].
    rewrite Hpriv. repeat split.
  - intros Hpub.
    unfold VerifySignatureSync, verifySignature, VerifySignature_args, GetPublic.
    cbn [length Nat.eqb negb arg nth Buffer_HasInstance IsFunction].
    rewrite Hpub. repeat split.
  - unfold ToDER. intros [H|H]; rewrite H; [reflexivity|].
    now destruct (hasPrivate key).
Qed.

(** X4.  [SignSync] hands back a value only for a key with private material
    and exactly one argument, a Buffer whose length is 32 as an [unsigned
    int]; the value is null or a Buffer that is not empty.
    [VerifySignatureSync] hands back a value only for a key with public
    material and exactly two arguments, both Buffers, the first of such a
    length; the value is a boolean. *)
Theorem values_only_after_checks
    (rand : RAND) (key : BitcoinKey) (args : list Value) (v : Value) :
  (SignSync rand key args = Return v ->
   hasPrivate key = true /\
   exists digest,
     args = [Buffer digest] /\
     to_unsigned_int (Z.of_nat (length digest)) = 32 /\
     (v = Null \/ exists der, v = Buffer der /\ der <> [])) /\
  (VerifySignatureSync key args = Return v ->
   hasPublic key = true /\
   exists digest sig,
     args = [Buffer digest; Buffer sig] /\
     to_unsigned_int (Z.of_nat (length digest)) = 32 /\
     exists b, v = Boolean b).
Proof.
  split.
  - unfold SignSync.
    destruct args as [|a [|b rest]]; cbn [length Nat.eqb negb]; try discriminate.
    unfold arg; cbn [nth].
    destruct a as [| | |digest| | | | |]; cbn [Buffer_HasInstance negb];
      try discriminate.
    destruct (hasPrivate key); cbn [negb]; [|discriminate].
    unfold Buffer_Length, Buffer_Data.
    destruct (Z.eqb_spec (to_unsigned_int (Z.of_nat (length digest))) 32)
      as [Hlen|]; cbn [negb]; [|discriminate].
    set (der := i2d_ECDSA_SIG _).
    intros H. split; [reflexivity|]. exists digest.
    split; [reflexivity|]. split; [exact Hlen|].
    destruct (Z.eqb_spec (Z.of_nat (length der)) 0) as [|Hne].
    + left. now injection H.
    + rewrite Z.eqb_refl in H. cbn [negb] in H. right. exists der.
      split; [now injection H|]. intros E. rewrite E in Hne. now apply Hne.
  - unfold VerifySignatureSync.
    destruct args as [|a [|b [|c rest]]]; cbn [length Nat.eqb negb];
      try discriminate.
    unfold arg; cbn [nth].
    destruct a as [| | |digest| | | | |]; cbn [Buffer_HasInstance negb];
      try discriminate.
    destruct b as [| | |sig| | | | |]; cbn [Buffer_HasInstance negb];
      try discriminate.
    destruct (hasPublic key); cbn [negb]; [|discriminate].
    unfold Buffer_Length, Buffer_Data.
    destruct (Z.eqb_spec (to_unsigned_int (Z.of_nat (length digest))) 32)
      as [Hlen|]; cbn [negb]; [|discriminate].
    intros H. split; [reflexivity|]. exists digest, sig.
    split; [reflexivity|]. split; [exact Hlen|].
    destruct (_ =? -1); [discriminate|].
    destruct (_ =? 0); [exists false; now injection H|].
    destruct (_ =? 1); [exists true; now injection H|discriminate].
Qed.

(** X5.  Whatever its arguments, [verifySignature] either throws and queues
    nothing, or returns undefined and then calls its third argument exactly
    once, with two arguments of which exactly one is null: [(null, boolean)]
    or [(TypeError, null)]. *)
Theorem verifySignature_calls_back_once (key : BitcoinKey) (args : list Value) :
  (is_value (fst (verifySignature key args)) = false /\
   snd (verifySignature key args) = []) \/
  (fst (verifySignature key args) = Return Undefined /\
   exists cb err result,
     arg args 2 = Function cb /\
     snd (verifySignature key args) = [mkCall (Function cb) [err; result]] /\
     ((err = Null /\ exists b, result = Boolean b) \/
      (result = Null /\ exists msg, err = TypeError msg))).
Proof.
  unfold verifySignature, VerifySignature_args.
  destruct (negb (length args =? 3)%nat); [left; split; reflexivity|].
  destruct (negb (Buffer_HasInstance (arg args 0))); [left; split; reflexivity|].
  destruct (negb (Buffer_HasInstance (arg args 1))); [left; split; reflexivity|].
  destruct (arg args 2) as [| | | |cb| | | |] eqn:Ecb; cbn [IsFunction negb];
    try (left; split; reflexivity).
  destruct (negb (hasPublic key)); [left; split; reflexivity|].
  destruct (negb (Buffer_Length (arg args 0) =? 32)); [left; split; reflexivity|].
  right. split; [reflexivity|].
  unfold uv_queue_work, VerifySignatureCallback, EIO_VerifySignature.
  cbn [baton_result baton_cb fst snd].
  destruct (_ =? -1); [|destruct (_ =? 0); [|destruct (_ =? 1)]];
    eexists _, _, _; (split; [reflexivity|split; [reflexivity|]]);
    [right|left|left|right]; split; try reflexivity; eexists; reflexivity.
Qed.

End CallChecks.

(** ** Regeneration and the life of a key *)

Section KeyLife.
Context {L : OpenSSL}.

(** X6.  [EC_KEY_regenerate_key] returns 0 or 1 and releases no container.
    With 0 the container it was given is as before; with 1 the container
    holds the scalar it was given and the point the multiplication gave. *)
Theorem EC_KEY_regenerate_key_result
    (eckey : option EC_KEY) (priv : option BIGNUM) (w : World) :
  let r := EC_KEY_regenerate_key eckey priv w in
  freed (snd r) = freed w /\
  ((fst (fst r) = 0 /\ snd (fst r) = eckey) \/
   (fst (fst r) = 1 /\
    exists e Q,
      eckey = Some e /\ EC_POINT_mul priv = Some Q /\
      snd (fst r) = Some (mkEC_KEY priv (Some Q)))).
Proof.
  unfold EC_KEY_regenerate_key, BN_CTX_new, EC_POINT_new, bind, ret, acquire.
  destruct eckey as [e|]; [|cbn; auto].
  destruct w as [[|[|] [|[|] rest]] released]; cbn -[EC_POINT_mul]; auto;
    destruct (EC_POINT_mul priv) as [Q|] eqn:Emul; cbn; auto;
    (split; [reflexivity|]); right; (split; [reflexivity|]);
    exists e, Q; auto.
Qed.

Lemma RegenerateSync_success
    (e : EC_KEY) (err : option string) (hpub : bool) (w : World) (Q : EC_POINT) :
  forallb (fun ok => ok) (firstn 3 (alloc_ok w)) = true ->
  EC_POINT_mul (priv_key e) = Some Q ->
  RegenerateSync (mkBitcoinKey (Some e) err true hpub) w
  = (Return Undefined,
     mkBitcoinKey (Some (mkEC_KEY (priv_key e) (Some Q))) err true true,
     mkWorld (skipn 3 (alloc_ok w)) (freed w ++ [e])).
Proof.
  intros Hok HQ.
  unfold RegenerateSync, EC_KEY_regenerate_key, EC_KEY_new_by_curve_name,
    BN_CTX_new, EC_POINT_new, EC_KEY_free, bind, ret, acquire.
  destruct w as [[|[|] [|[|] [|[|] rest]]] released];
    cbn -[EC_POINT_mul] in Hok |- *; try discriminate;
    rewrite HQ; reflexivity.
Qed.

(** X7.  Regenerating twice gives the key that regenerating once gives: the
    second call recomputes the same point from the same scalar, and releases
    the container the first call made. *)
Theorem RegenerateSync_twice
    (e : EC_KEY) (err : option string) (hpub : bool) (w : World) (Q : EC_POINT) :
  forallb (fun ok => ok) (firstn 3 (alloc_ok w)) = true ->
  forallb (fun ok => ok) (firstn 3 (skipn 3 (alloc_ok w))) = true ->
  EC_POINT_mul (priv_key e) = Some Q ->
  let r1 := RegenerateSync (mkBitcoinKey (Some e) err true hpub) w in
  let r2 := RegenerateSync (snd (fst r1)) (snd r1) in
  snd (fst r2) = snd (fst r1) /\
  freed (snd r2) = freed w ++ [e; mkEC_KEY (priv_key e) (Some Q)].
Proof.
  intros Hok1 Hok2 HQ. cbv zeta.
  rewrite (RegenerateSync_success e err hpub w Q Hok1 HQ). cbn [fst snd].
  assert (E2 :
    RegenerateSync
      (mkBitcoinKey (Some (mkEC_KEY (priv_key e) (Some Q))) err true true)
      (mkWorld (skipn 3 (alloc_ok w)) (freed w ++ [e]))
    = (Return Undefined,
       mkBitcoinKey (Some (mkEC_KEY (priv_key e) (Some Q))) err true true,
       mkWorld (skipn 3 (skipn 3 (alloc_ok w)))
               ((freed w ++ [e]) ++ [mkEC_KEY (priv_key e) (Some Q)])))
    by exact (RegenerateSync_success (mkEC_KEY (priv_key e) (Some Q)) err true
                (mkWorld (skipn 3 (alloc_ok w)) (freed w ++ [e])) Q Hok2 HQ).
  rewrite E2. cbn [fst snd freed]. split; [reflexivity|].
  now rewrite <- app_assoc.
Qed.

Lemma RegenerateSync_flags (key : BitcoinKey) (w : World) :
  let r := RegenerateSync key w in
  hasPrivate (snd (fst r)) = hasPrivate key /\
  lastError (snd (fst r)) = lastError key /\
  (hasPublic key = true -> hasPublic (snd (fst r)) = true) /\
  exists released, freed (snd r) = freed w ++ released.
Proof.
  cbv zeta.
  unfold RegenerateSync, EC_KEY_regenerate_key, EC_KEY_new_by_curve_name,
    BN_CTX_new, EC_POINT_new, EC_KEY_free, bind, ret, acquire.
  destruct key as [[e|] err [|] hpub];
    destruct w as [[|[|] [|[|] [|[|] rest]]] released];
    cbn -[EC_POINT_mul];
    try destruct (EC_POINT_mul _) as [Q|];
    cbn -[EC_POINT_mul];
    (split; [reflexivity|split; [reflexivity|split]]);
    try (intros ->; reflexivity); try (intros _; reflexivity);
    first [ exists []; symmetry; apply app_nil_r | eexists; reflexivity ].
Qed.


Lemma apply_mutation_flags (m : Mutation) (key : BitcoinKey) (w : World) :
  let r := apply_mutation m key w in
  (hasPrivate key = true -> hasPrivate (fst r) = true) /\
  (hasPublic key = true -> hasPublic (fst r) = true) /\
  (lastError key <> None -> lastError (fst r) <> None) /\
  exists released, freed (snd r) = freed w ++ released.
Proof.
  cbv zeta. destruct m as [data|data| |rand]; unfold apply_mutation.
  - unfold ret, SetPrivate. cbn [fst snd hasPrivate hasPublic lastError].
    split; [reflexivity|split; [auto|split; [auto|]]].
    exists []. now rewrite app_nil_r.
  - unfold ret, SetPublic. cbn [fst snd].
    destruct (o2i_ECPublicKey (ec key) data) as [[|] e];
      cbn [negb hasPrivate hasPublic lastError];
      (split; [auto|split; [auto|split; [auto|]]]);
      exists []; now rewrite app_nil_r.
  - unfold bind, ret.
    pose proof (RegenerateSync_flags key w) as H. cbv zeta in H.
    destruct (RegenerateSync key w) as [[c k] w']. cbn [fst snd] in *.
    destruct H as (Hpriv & Herr & Hpub & Hfreed).
    split; [now rewrite Hpriv|split; [exact Hpub|split; [now rewrite Herr|]]].
    exact Hfreed.
  - unfold ret, Generate. cbn [fst snd].
    destruct (EC_KEY_generate_key rand (ec key)) as [[|] e];
      cbn [negb hasPrivate hasPublic lastError];
      (split; [auto|split; [auto|split; [auto; try discriminate|]]]);
      exists []; now rewrite app_nil_r.
Qed.

(** X9.  No sequence of assignments to [private] and [public] and of calls
    of [regenerateSync] and [Generate] clears a flag: a key that has
    [hasPrivate] keeps it, and so for [hasPublic], whether or not the calls
    succeed.  An error once recorded stays recorded, and no container that
    was released comes back. *)
Theorem flags_never_cleared (ms : list Mutation) (key : BitcoinKey) (w : World) :
  let r := apply_mutations ms key w in
  (hasPrivate key = true -> hasPrivate (fst r) = true) /\
  (hasPublic key = true -> hasPublic (fst r) = true) /\
  (lastError key <> None -> lastError (fst r) <> None) /\
  exists released, freed (snd r) = freed w ++ released.
Proof.
  cbv zeta. revert key w.
  induction ms as [|m rest IH]; intros key w.
  - cbn. split; [auto|split; [auto|split; [auto|]]].
    exists []. now rewrite app_nil_r.
  - cbn [apply_mutations]. unfold bind.
    pose proof (apply_mutation_flags m key w) as H. cbv zeta in H.
    destruct (apply_mutation m key w) as [k1 w1]. cbn [fst snd] in H.
    destruct H as (Hpriv & Hpub & Herr & r1 & Hfreed).
    destruct (IH k1 w1) as (Hpriv' & Hpub' & Herr' & r2 & Hfreed').
    split; [auto|split; [auto|split; [auto|]]].
    exists (r1 ++ r2). now rewrite Hfreed', Hfreed, app_assoc.
Qed.

End KeyLife.

(** ** What the exporters and [FromDER] hand back *)

Section Exports.
Context {L : OpenSSL}.


(** X11.  [FromDER] releases no container on any path.  It returns a value
    only when it is given exactly one argument, a Buffer that
    [d2i_ECPrivateKey] decodes into the container of a new key, and the
    value is then an object around another new key, without material.  When
    the constructor succeeds and the bytes do not decode, it throws and names
    the library call. *)
Theorem FromDER_result (args : list Value) (w : World) :
  let r := FromDER args w in
  freed (snd r) = freed w /\
  (forall v,
     fst r = Return v ->
     exists der e,
       args = [Buffer der] /\
       d2i_ECPrivateKey (Some (mkEC_KEY None None)) der = Some e /\
       v = Wrapped (mkBitcoinKey (Some (mkEC_KEY None None)) None false false)) /\
  (forall der,
     args = [Buffer der] ->
     hd true (alloc_ok w) = true ->
     d2i_ECPrivateKey (Some (mkEC_KEY None None)) der = None ->
     fst r = VException "Error from d2i_ECPrivateKey(&key, &data, len)").
Proof.
  cbv zeta. unfold FromDER.
  destruct args as [|a [|b rest]]; cbn [length Nat.eqb negb];
    try (split; [reflexivity|split; [discriminate|discriminate]]).
  unfold arg; cbn [nth].
  destruct a as [| | |der| | | | |]; cbn [Buffer_HasInstance negb Buffer_Data];
    try (split; [reflexivity|split; [discriminate|discriminate]]).
  unfold New_args, BitcoinKey_ctor, EC_KEY_new_by_curve_name, bind, ret, acquire.
  destruct w as [[|[|] [|[|] others]] released];
    cbn -[d2i_ECPrivateKey];
    try (split; [reflexivity|split; [discriminate|]];
         intros der' _ Hhd; discriminate);
    destruct (d2i_ECPrivateKey (Some (mkEC_KEY None None)) der) as [e|] eqn:Ed;
    cbn -[d2i_ECPrivateKey];
    (split; [reflexivity|split]);
    try discriminate;
    try (intros v [= <-]; exists der, e; repeat split; exact Ed);
    try (intros der' [= <-] _ Hnone; rewrite Hnone in Ed; discriminate);
    try (intros der' [= <-] _ _; reflexivity).
Qed.

End Exports.

(** ** Signing with a key that was imported or generated *)

Section Composition.
Context {L : OpenSSL} {C : OpenSSL_contract L}.

(** With private material and a 32-byte digest, [SignSync] is decided by one
    call of [ECDSA_do_sign] on the digest and the container. *)
Lemma SignSync_result (rand : RAND) (key : BitcoinKey) (digest : list byte) :
  length digest = 32%nat ->
  hasPrivate key = true ->
  let der := i2d_ECDSA_SIG (ECDSA_do_sign rand digest (ec key)) in
  SignSync rand key [Buffer digest]
  = (if Z.of_nat (length der) =? 0 then Return Null else Return (Buffer der)).
Proof.
  intros Hlen Hpriv. unfold SignSync.
  cbn [length Nat.eqb negb arg nth Buffer_HasInstance].
  rewrite Hpriv. unfold Buffer_Length, Buffer_Data, Sign. rewrite Hlen.
  change (Z.of_nat 32) with 32. change (to_unsigned_int 32) with 32.
  change (32 =? 32) with true. change (to_int 32) with 32. cbn [negb].
  rewrite (bytes_at_32 digest Hlen). cbv zeta.
  destruct (Z.of_nat (length (i2d_ECDSA_SIG (ECDSA_do_sign rand digest (ec key))))
            =? 0); [reflexivity|].
  now rewrite Z.eqb_refl.
Qed.

Lemma pair_signs_and_verifies
    (rand : RAND) (key : BitcoinKey) (d : Z) (Q : EC_POINT)
    (digest : list byte) (sig : ECDSA_SIG) :
  ec key = Some (mkEC_KEY (Some d) (Some Q)) ->
  hasPrivate key = true ->
  hasPublic key = true ->
  1 <= d < order ->
  EC_POINT_mul (Some d) = Some Q ->
  length digest = 32%nat ->
  ECDSA_do_sign rand digest (ec key) = Some sig ->
  SignSync rand key [Buffer digest] = Return (Buffer (i2d_ECDSA_SIG (Some sig))) /\
  VerifySignatureSync key [Buffer digest; Buffer (i2d_ECDSA_SIG (Some sig))]
  = Return (Boolean true) /\
  forall cb,
    verifySignature key [Buffer digest; Buffer (i2d_ECDSA_SIG (Some sig)); Function cb]
    = (Return Undefined, [mkCall (Function cb) [Null; Boolean true]]).
Proof.
  intros Hec Hpriv Hpub Hd HQ Hlen Hsign.
  assert (Hsign' :
    ECDSA_do_sign rand digest (Some (mkEC_KEY (Some d) (Some Q))) = Some sig)
    by now rewrite <- Hec.
  destruct (ECDSA_sign_verify rand digest d (Some Q) (Some d) Q sig Hd Hlen HQ Hsign')
    as [Hsize Hverify].
  assert (Hresult :
    VerifySignature key digest 32 (i2d_ECDSA_SIG (Some sig))
      (to_int (Z.of_nat (length (i2d_ECDSA_SIG (Some sig))))) = 1).
  { unfold VerifySignature.
    rewrite (bytes_at_32 digest Hlen), to_int_fits by lia.
    now rewrite bytes_at_length, Hec. }
  split; [|split].
  - rewrite (SignSync_result rand key digest Hlen Hpriv). cbv zeta.
    rewrite Hsign.
    destruct (Z.eqb_spec (Z.of_nat (length (i2d_ECDSA_SIG (Some sig)))) 0);
      [lia|reflexivity].
  - rewrite (VerifySignatureSync_result key digest _ Hlen Hpub).
    cbv zeta. now rewrite Hresult.
  - intros cb. rewrite (verifySignature_result key digest _ cb Hlen Hpub).
    cbv zeta. now rewrite Hresult.
Qed.

(** X12.  A signature the library could not make is not reported: on a key
    with private material and a 32-byte digest, [SignSync] returns null when
    [ECDSA_do_sign] returns NULL, and throws nothing. *)
Theorem SignSync_null_on_failure
    (rand : RAND) (key : BitcoinKey) (digest : list byte) :
  hasPrivate key = true ->
  length digest = 32%nat ->
  ECDSA_do_sign rand digest (ec key) = None ->
  SignSync rand key [Buffer digest] = Return Null.
Proof.
  intros Hpriv Hlen Hsign.
  rewrite (SignSync_result rand key digest Hlen Hpriv). cbv zeta.
  now rewrite Hsign, i2d_ECDSA_SIG_NULL.
Qed.

(** X13.  Importing a scalar and using it.  A key is assigned the bytes of a
    scalar in [1, order - 1] and regenerated, the library calls succeeding.
    Then, whenever the library makes a signature of a 32-byte digest,
    [SignSync] returns its encoding, [VerifySignatureSync] accepts that
    encoding, and [verifySignature] calls back with [(null, true)]; whatever
    public point or flags the key had before do not matter. *)
Theorem import_regenerate_sign_verify
    (rand : RAND) (e : EC_KEY) (err : option string) (hpriv hpub : bool)
    (data digest : list byte) (w : World) (Q : EC_POINT) (sig : ECDSA_SIG) :
  Buffer_fits data ->
  1 <= BN_bin2bn data < order ->
  forallb (fun ok => ok) (firstn 3 (alloc_ok w)) = true ->
  EC_POINT_mul (Some (BN_bin2bn data)) = Some Q ->
  length digest = 32%nat ->
  ECDSA_do_sign rand digest (Some (mkEC_KEY (Some (BN_bin2bn data)) (Some Q)))
  = Some sig ->
  let key :=
    snd (fst (RegenerateSync
                (SetPrivate (mkBitcoinKey (Some e) err hpriv hpub) data) w)) in
  SignSync rand key [Buffer digest] = Return (Buffer (i2d_ECDSA_SIG (Some sig))) /\
  VerifySignatureSync key [Buffer digest; Buffer (i2d_ECDSA_SIG (Some sig))]
  = Return (Boolean true) /\
  forall cb,
    verifySignature key [Buffer digest; Buffer (i2d_ECDSA_SIG (Some sig)); Function cb]
    = (Return Undefined, [mkCall (Function cb) [Null; Boolean true]]).
Proof.
  intros Hfit Hd Hok HQ Hlen Hsign key.
  assert (Hkey :
    key = mkBitcoinKey (Some (mkEC_KEY (Some (BN_bin2bn data)) (Some Q)))
                       err true true).
  { subst key. rewrite (SetPrivate_fits _ data Hfit). cbn [ec lastError hasPublic].
    now rewrite (RegenerateSync_success
                   (EC_KEY_set_private_key e (Some (BN_bin2bn data)))
                   err hpub w Q Hok HQ). }
  rewrite Hkey.
  now apply (pair_signs_and_verifies rand _ (BN_bin2bn data) Q digest sig).
Qed.

Context {K : OpenSSL_generate_contract L}.

(** X14.  [GenerateSync], when the constructor gets its container, ignores
    its arguments and either throws "Error from EC_KEY_generate_key" or
    returns an object around a key that has both flags set, no error, a
    scalar in [1, order - 1] and the point [scalar * generator].  It releases
    nothing. *)
Theorem GenerateSync_result (rand : RAND) (args : list Value) (w : World) :
  hd true (alloc_ok w) = true ->
  let r := GenerateSync rand args w in
  freed (snd r) = freed w /\
  (fst r = Some (VException "Error from EC_KEY_generate_key") \/
   exists d Q,
     1 <= d < order /\
     EC_POINT_mul (Some d) = Some Q /\
     fst r = Some (Return (Wrapped
               (mkBitcoinKey (Some (mkEC_KEY (Some d) (Some Q))) None true true)))).
Proof.
  intros Hhd. cbv zeta.
  unfold GenerateSync, New, New_args, BitcoinKey_ctor, EC_KEY_new_by_curve_name,
    bind, ret, acquire.
  destruct w as [[|[|] rest] released]; cbn in Hhd; try discriminate;
    cbn -[EC_KEY_generate_key]; unfold Generate; cbn [ec];
    destruct (EC_KEY_generate_key rand (Some (mkEC_KEY None None)))
      as [[|] e'] eqn:E; cbn [negb lastError fst snd freed];
    (split; [reflexivity|]); try (left; reflexivity);
    apply EC_KEY_generate_key_pair in E as (d & Q & -> & Hd & HQ);
    right; exists d, Q; repeat split; assumption || apply Hd.
Qed.

(** X15.  A generated key signs and verifies: whenever the library makes a
    signature of a 32-byte digest with the key that [GenerateSync] returned,
    [SignSync] returns its encoding and [VerifySignatureSync] accepts it. *)
Theorem generate_sign_verify
    (rand rand' : RAND) (args : list Value) (w : World) (key : BitcoinKey)
    (digest : list byte) (sig : ECDSA_SIG) :
  fst (GenerateSync rand args w) = Some (Return (Wrapped key)) ->
  length digest = 32%nat ->
  ECDSA_do_sign rand' digest (ec key) = Some sig ->
  SignSync rand' key [Buffer digest] = Return (Buffer (i2d_ECDSA_SIG (Some sig))) /\
  VerifySignatureSync key [Buffer digest; Buffer (i2d_ECDSA_SIG (Some sig))]
  = Return (Boolean true).
Proof.
  intros Hgen Hlen Hsign.
  assert (Hkey : exists d Q,
    1 <= d < order /\ EC_POINT_mul (Some d) = Some Q /\
    key = mkBitcoinKey (Some (mkEC_KEY (Some d) (Some Q))) None true true).
  { revert Hgen.
    unfold GenerateSync, New, New_args, BitcoinKey_ctor, EC_KEY_new_by_curve_name,
      bind, ret, acquire.
    destruct w as [[|[|] rest] released];
      cbn -[EC_KEY_generate_key]; try discriminate; unfold Generate; cbn [ec];
      destruct (EC_KEY_generate_key rand (Some (mkEC_KEY None None)))
        as [[|] e'] eqn:E; cbn [negb lastError fst snd]; try discriminate;
      apply EC_KEY_generate_key_pair in E as (d & Q & -> & Hd & HQ);
      intros [= <-]; exists d, Q; auto. }
  destruct Hkey as (d & Q & Hd & HQ & ->).
  destruct (pair_signs_and_verifies rand'
              (mkBitcoinKey (Some (mkEC_KEY (Some d) (Some Q))) None true true)
              d Q digest sig eq_refl eq_refl eq_refl Hd HQ Hlen Hsign)
    as (Hs & Hv & _).
  split; assumption.
Qed.

End Composition.

(** The reference implementation generates keys as the contract says. *)
Lemma ref_generate_contract : OpenSSL_generate_contract Ref.openssl.
Proof.
  constructor. intros rand e e'.
  change (Ref.EC_KEY_generate_key rand (Some e) = (true, e') ->
          exists (d : Z) (Q : Ref.point),
            e' = Some (mkEC_KEY (Some d) (Some Q)) /\
            1 <= d < Ref.n /\ Ref.EC_POINT_mul (Some d) = Some Q).
  unfold Ref.EC_KEY_generate_key.
  destruct (filter (fun k => negb (k mod Ref.n =? 0)) rand) as [|k rest] eqn:E;
    [discriminate|].
  intros [= <-]. exists (k mod Ref.n), (Ref.mul k Ref.G).
  split; [reflexivity|]. split.
  - assert (Hin : In k (filter (fun k => negb (k mod Ref.n =? 0)) rand))
      by (rewrite E; now left).
    apply filter_In in Hin as [_ Hk].
    apply negb_true_iff, Z.eqb_neq in Hk.
    pose proof (Z.mod_pos_bound k Ref.n eq_refl). lia.
  - unfold Ref.EC_POINT_mul. now rewrite ref_mul_mod.
Qed.

(** ** Further runs on the reference implementation *)

Section FurtherRuns.
Import Example.
#[local] Existing Instance Ref.openssl.

(** X1 on a new key and a scalar of 32 bytes: what was assigned is read
    back. *)
Lemma GetPrivate_SetPrivate_round_trip_witness :
  (length wide_scalar <= 32)%nat /\
  hd x01 wide_scalar <> x00 /\
  GetPrivate used_heap (SetPrivate empty_key wide_scalar)
  = Return (Buffer wide_scalar).
Proof.
  assert (Hlen : (length wide_scalar <= 32)%nat) by (cbn; lia).
  assert (Hhd : hd x01 wide_scalar <> x00) by discriminate.
  destruct (GetPrivate_SetPrivate_round_trip used_heap (mkEC_KEY None None)
              None false false wide_scalar Hlen Hhd) as [_ H32].
  split; [exact Hlen|split; [exact Hhd|exact (H32 eq_refl)]].
Defined.

(** X2 on the key pair with the scalar 5. *)
Lemma GetPrivate_fixed_width_witness :
  GetPrivate used_heap pair_key = Return (Buffer (repeat xaa 31 ++ [x05])) /\
  length (repeat xaa 31 ++ [x05]) = 32%nat /\
  hasPrivate pair_key = true.
Proof.
  assert (H : GetPrivate used_heap pair_key
              = Return (Buffer (repeat xaa 31 ++ [x05]))) by reflexivity.
  destruct (GetPrivate_fixed_width used_heap pair_key _ H) as (Hl & Hp & _).
  split; [exact H|split; [exact Hl|exact Hp]].
Defined.

(** X7 on the key that was given the scalar 9. *)
Lemma RegenerateSync_twice_witness :
  forallb (fun ok => ok) (firstn 3 (alloc_ok fresh_world)) = true /\
  EC_POINT_mul (Some 9) = Some (Ref.Aff 20 40) /\
  snd (fst (RegenerateSync
              (snd (fst (RegenerateSync private_only_key fresh_world)))
              (snd (RegenerateSync private_only_key fresh_world))))
  = snd (fst (RegenerateSync private_only_key fresh_world)) /\
  freed (snd (RegenerateSync
                (snd (fst (RegenerateSync private_only_key fresh_world)))
                (snd (RegenerateSync private_only_key fresh_world))))
  = [mkEC_KEY (Some 9) None; mkEC_KEY (Some 9) (Some (Ref.Aff 20 40))].
Proof.
  split; [reflexivity|split; [reflexivity|]].
  exact (RegenerateSync_twice (mkEC_KEY (Some 9) None) None false fresh_world
           (Ref.Aff 20 40) eq_refl eq_refl eq_refl).
Defined.


(** X12: with the scalar 7 and the nonce 7 the signature would have
    [s = 0]; the library makes none and [SignSync] returns null. *)
Lemma SignSync_null_on_failure_witness :
  hasPrivate generated_key = true /\
  length digest32 = 32%nat /\
  ECDSA_do_sign rand digest32 (ec generated_key) = None /\
  SignSync rand generated_key [Buffer digest32] = Return Null.
Proof.
  assert (Hsign : ECDSA_do_sign rand digest32 (ec generated_key) = None)
    by reflexivity.
  split; [reflexivity|split; [reflexivity|split; [exact Hsign|]]].
  exact (SignSync_null_on_failure (C := ref_contract) rand generated_key digest32
           eq_refl eq_refl Hsign).
Defined.

(** X13 on a new key that is assigned the scalar 5. *)
Lemma import_regenerate_sign_verify_witness :
  Buffer_fits [x05] /\
  1 <= BN_bin2bn [x05] < order /\
  SignSync rand
    (snd (fst (RegenerateSync (SetPrivate empty_key [x05]) fresh_world)))
    [Buffer digest32]
  = Return (Buffer signature) /\
  VerifySignatureSync
    (snd (fst (RegenerateSync (SetPrivate empty_key [x05]) fresh_world)))
    [Buffer digest32; Buffer signature]
  = Return (Boolean true).
Proof.
  assert (Hfit : Buffer_fits [x05]) by (unfold Buffer_fits, kMaxLength; cbn; lia).
  assert (Hd : 1 <= BN_bin2bn [x05] < order) by (change (1 <= 5 < 31); lia).
  destruct (import_regenerate_sign_verify (C := ref_contract) rand
              (mkEC_KEY None None) None false false [x05] digest32 fresh_world
              (Ref.Aff 12 12) (25, 15) Hfit Hd eq_refl eq_refl eq_refl eq_refl)
    as (Hs & Hv & _).
  split; [exact Hfit|split; [exact Hd|split; [exact Hs|exact Hv]]].
Defined.

(** X14 with a random source that returns 7. *)
Lemma GenerateSync_result_witness :
  hd true (alloc_ok fresh_world) = true /\
  fst (GenerateSync rand [] fresh_world) = Some (Return (Wrapped generated_key)) /\
  freed (snd (GenerateSync rand [] fresh_world)) = [].
Proof.
  destruct (GenerateSync_result (K := ref_generate_contract) rand [] fresh_world
              eq_refl) as [Hfreed _].
  split; [reflexivity|split; [reflexivity|exact Hfreed]].
Defined.

(** X15: the generated key signs [digest32] with the nonce 3, and accepts
    the signature. *)
Lemma generate_sign_verify_witness :
  fst (GenerateSync rand [] fresh_world) = Some (Return (Wrapped generated_key)) /\
  length digest32 = 32%nat /\
  ECDSA_do_sign other_rand digest32 (ec generated_key) = Some (4, 13) /\
  SignSync other_rand generated_key [Buffer digest32]
  = Return (Buffer other_signature) /\
  VerifySignatureSync generated_key [Buffer digest32; Buffer other_signature]
  = Return (Boolean true).
Proof.
  assert (Hgen : fst (GenerateSync rand [] fresh_world)
                 = Some (Return (Wrapped generated_key))) by reflexivity.
  assert (Hsign : ECDSA_do_sign other_rand digest32 (ec generated_key)
                  = Some (4, 13)) by reflexivity.
  destruct (generate_sign_verify (C := ref_contract) (K := ref_generate_contract)
              rand other_rand [] fresh_world generated_key digest32 (4, 13)
              Hgen eq_refl Hsign) as [Hs Hv].
  split; [exact Hgen|split; [reflexivity|split; [exact Hsign|]]].
  split; [exact Hs|exact Hv].
Defined.

End FurtherRuns.
